(** * Bangazon product API: the Products view set and the UserLike model

    A shallow embedding of [bangazonapi/views/product.py] (the handlers
    [retrieve], [destroy], [list], [rate], [like] and [liked] of the
    [Products] view set) and of [bangazonapi/models/userlike.py].

    Conventions of the embedding.
    - A database table is the list of its rows in storage order; a query
      without ORDER BY returns rows in that order and ORDER BY is a stable
      sort of it (rows with equal keys keep their storage order).
    - A Python exception is a value of [exn]; code that may raise lives in
      the monad [M], which threads the database and stops at the first
      exception that no [except] clause catches.
    - Primary keys are integers ([Z]); a price is the exact rational value
      of the stored number ([Q]); a date is its day number ([Z]).
    - A string is the sequence of the characters of a text, each with a
      code point below 256. *)

From Stdlib Require Import ZArith QArith List String Ascii Bool Lia.
Import ListNotations.

Local Open Scope string_scope.
Local Open Scope Z_scope.

(** ** Exceptions and results *)

(** The model classes of [bangazonapi.models] used by the view. *)
Inductive Model := ProductM | CustomerM | ProductRatingM | UserLikeM.

Inductive exn :=
| DoesNotExist (m : Model)              (* <Model>.DoesNotExist *)
| MultipleObjectsReturned (m : Model)   (* <Model>.MultipleObjectsReturned *)
| AttributeError (obj attr : string)
| KeyError (key : string)
| ValueError (literal : string)
| FieldError (name : string)
| TypeError (msg : string)
| NegativeIndexing.                     (* "Negative indexing is not supported." *)

Inductive result (A : Type) :=
| Ok (a : A)
| Raise (e : exn).
Arguments Ok {A} a.
Arguments Raise {A} e.

(** One step after another: the second runs on what the first returned,
    unless the first raised. *)
Definition and_then {A B : Type} (r : result A) (k : A -> result B)
  : result B :=
  match r with
  | Ok a => k a
  | Raise e => Raise e
  end.

Definition Model_eqb (a b : Model) : bool :=
  match a, b with
  | ProductM, ProductM | CustomerM, CustomerM
  | ProductRatingM, ProductRatingM | UserLikeM, UserLikeM => true
  | _, _ => false
  end.

(** [except <m>.DoesNotExist] matches exactly this exception. *)
Definition is_DoesNotExist (m : Model) (e : exn) : bool :=
  match e with
  | DoesNotExist m' => Model_eqb m m'
  | _ => false
  end.

(** ** Python's [int(str)] in base 10

    Blanks around the literal are skipped, one sign is allowed, then decimal
    digits follow, where a single underscore may sit between two digits.
    Anything else (a decimal point, an empty string, letters) raises
    [ValueError]. The blanks are the six of ASCII (tab, line feed, vertical
    tab, form feed, carriage return, space) and, of the characters from 128
    to 255, next line (133) and no-break space (160); the separators 28 to
    31, which [str.strip] removes, are no blanks for [int]. A literal of
    more than 4300 digits is refused with [ValueError] as well. *)
Module Py.

Definition is_space (c : ascii) : bool :=
  let n := nat_of_ascii c in
  ((9 <=? n) && (n <=? 13) || (n =? 32) || (n =? 133) || (n =? 160))%nat.

Definition is_digit (c : ascii) : bool :=
  let n := nat_of_ascii c in ((48 <=? n) && (n <=? 57))%nat.

Definition digit_value (c : ascii) : Z := Z.of_nat (nat_of_ascii c) - 48.

Fixpoint lstrip (s : list ascii) : list ascii :=
  match s with
  | c :: r => if is_space c then lstrip r else s
  | [] => []
  end.

Definition strip (s : list ascii) : list ascii :=
  rev (lstrip (rev (lstrip s))).

(** [digits acc after_digit s]: [after_digit] tells whether the previous
    character was a digit (an underscore needs a digit on both sides). *)
Fixpoint digits (acc : Z) (after_digit : bool) (s : list ascii) : option Z :=
  match s with
  | [] => if after_digit then Some acc else None
  | c :: r =>
      if is_digit c then digits (10 * acc + digit_value c) true r
      else if Ascii.eqb c "_"%char
           then (if after_digit then digits acc false r else None)
           else None
  end.

(** [sys.get_int_max_str_digits()], as Python sets it. *)
Definition max_str_digits : nat := 4300.

Definition literal (s : list ascii) : option Z :=
  if (max_str_digits <? List.length (filter is_digit s))%nat then None
  else digits 0 false s.

Definition int_opt (s : string) : option Z :=
  match strip (list_ascii_of_string s) with
  | c :: r =>
      if Ascii.eqb c "-"%char then option_map Z.opp (literal r)
      else if Ascii.eqb c "+"%char then literal r
      else literal (c :: r)
  | [] => None
  end.

Definition int (s : string) : result Z :=
  match int_opt s with
  | Some z => Ok z
  | None => Raise (ValueError s)
  end.

(** [int(b)] of a boolean. *)
Definition int_of_bool (b : bool) : Z := if b then 1 else 0.

End Py.


(** ** Dictionaries of a request

    [request.query_params] is a [QueryDict], the pairs of the query string
    in order; [request.data] is the parsed body. Both are read by key, and
    the last value given for a key is the one that counts. [qget] is
    [.get(key, None)]. *)
Fixpoint qget {V : Type} (key : string) (q : list (string * V)) : option V :=
  match q with
  | [] => None
  | (k, v) :: r =>
      match qget key r with
      | Some v' => Some v'
      | None => if String.eqb k key then Some v else None
      end
  end.

Definition QueryDict := list (string * string).

(** [sub] occurs in [s], character for character. *)
Fixpoint contains (sub s : string) : bool :=
  String.prefix sub s ||
  match s with
  | EmptyString => false
  | String _ r => contains sub r
  end.

(** A text with its ASCII capitals turned into small letters. *)
Definition ascii_lower (c : ascii) : ascii :=
  let n := nat_of_ascii c in
  if ((65 <=? n) && (n <=? 90))%nat then ascii_of_nat (n + 32) else c.

Fixpoint lower (s : string) : string :=
  match s with
  | EmptyString => EmptyString
  | String c r => String (ascii_lower c) (lower r)
  end.

(** The [__contains] lookup. Django compiles it to [LIKE '%sub%'], with
    the wildcards of [sub] escaped, so it asks whether [sub] occurs in [s];
    how LIKE compares letters is the database's: SQLite's ignores the case
    of the ASCII letters unless [case_sensitive_like] is set for the
    connection, PostgreSQL's does not. *)
Definition like_contains (case_sensitive : bool) (sub s : string) : bool :=
  if case_sensitive then contains sub s
  else contains (lower sub) (lower s).


(** ** The entities

    [UserLike] is embedded from [models/userlike.py]: two foreign keys and
    the implicit integer primary key [id] that every Django model gets. *)
Module UserLike.
Record t := { id : Z; product : Z; customer : Z }.
End UserLike.

(** Modelled from the spec: the Product entity, whose declaration
    ([models/product.py]) is not among the sources. Its attributes are the
    spec's: id, name, price, description, quantity, location, created_date,
    image_path, number_sold, average_rating, category and customer (both by
    key). The per-request [liked] flag is not a column; the name [liked]
    on a Product is what [UserLike.product] declares (see [models]). *)
Module Product.
Record t := {
  id : Z;
  name : string;
  price : Q;
  description : string;
  quantity : Z;
  location : string;
  created_date : Z;
  image_path : string;
  number_sold : Z;
  average_rating : Q;
  category : Z;
  customer : Z
}.
End Product.

(** Modelled from the spec: the Customer entity ([models/customer.py] is
    not among the sources): a key and the user identity it belongs to. *)
Module Customer.
Record t := { id : Z; user : Z }.
End Customer.

(** Modelled from the spec: the ProductRating entity
    ([models/productrating.py] is not among the sources): (product,
    customer, rating). *)
Module ProductRating.
Record t := { id : Z; product : Z; customer : Z; rating : Z }.
End ProductRating.

(** ** Model declarations

    What a [models.Model] subclass declares: its foreign keys with their
    options, and the [unique_together] sets of its [Meta] (none when the
    class has no [Meta]). [unique] is Django's field option, [False] unless
    the declaration sets it. *)
Module models.

Inductive OnDelete := CASCADE.

Record ForeignKey := {
  field_name : string;
  to : Model;
  on_delete : OnDelete;
  related_name : option string;
  unique : bool
}.

Record ModelClass := {
  fields : list ForeignKey;
  unique_together : list (list string)
}.

(** [class UserLike(models.Model)], lines 5 to 8 of [models/userlike.py]. *)
Definition UserLike : ModelClass := {|
  fields := [
    {| field_name := "product"; to := ProductM; on_delete := CASCADE;
       related_name := Some "liked"; unique := false |};
    {| field_name := "customer"; to := CustomerM; on_delete := CASCADE;
       related_name := None; unique := false |} ];
  unique_together := []
|}.

(** The name under which [target] reaches the rows that point at it
    through [f], in a query and as an attribute of its instances: the
    related name when one is declared, and otherwise a name made from the
    pointing class ([userlike] in a query, [userlike_set] as attribute). *)
Definition related_query_name (default : string) (f : ForeignKey) : string :=
  match related_name f with
  | Some n => n
  | None => default
  end.

Definition reverse_names (target : Model) (default : string) (c : ModelClass)
  : list string :=
  map (related_query_name default)
      (filter (fun f => Model_eqb (to f) target) (fields c)).

End models.

(** The value of a declared column of a [UserLike] row. *)
Definition UserLike_column (col : string) (r : UserLike.t) : option Z :=
  if String.eqb col "id" then Some (UserLike.id r)
  else if String.eqb col "product" then Some (UserLike.product r)
  else if String.eqb col "customer" then Some (UserLike.customer r)
  else None.

Fixpoint distinctb {A : Type} (eqb : A -> A -> bool) (l : list A) : bool :=
  match l with
  | [] => true
  | x :: r => negb (existsb (eqb x) r) && distinctb eqb r
  end.

Definition cell_eqb (a b : option Z) : bool :=
  match a, b with
  | Some x, Some y => x =? y
  | None, None => true
  | _, _ => false
  end.

Fixpoint key_eqb (a b : list (option Z)) : bool :=
  match a, b with
  | [], [] => true
  | x :: a', y :: b' => cell_eqb x y && key_eqb a' b'
  | _, _ => false
  end.

(** No two rows agree on all of [cols]. *)
Definition unique_on (cols : list string) (rows : list UserLike.t) : bool :=
  distinctb key_eqb
    (map (fun r => map (fun c => UserLike_column c r) cols) rows).

(** The rows of a table satisfy what its class declares: the primary key
    is unique, and so is every [unique] field and every [unique_together]
    set. *)
Definition satisfies (c : models.ModelClass) (rows : list UserLike.t) : bool :=
  unique_on ["id"] rows
  && forallb (fun f => implb (models.unique f)
                             (unique_on [models.field_name f] rows))
             (models.fields c)
  && forallb (fun cols => unique_on cols rows) (models.unique_together c).

(** ** The database

    The four tables, the sequences that issue keys, and how the database
    compares letters in [LIKE]. *)
Record Database := {
  products : list Product.t;
  customers : list Customer.t;
  productratings : list ProductRating.t;
  userlikes : list UserLike.t;
  productrating_seq : Z;   (* last key issued for a ProductRating *)
  userlike_seq : Z;        (* last key issued for a UserLike *)
  case_sensitive_like : bool
}.

(** ** Requests and responses *)
Record Request := {
  method : string;
  auth : option Z;              (* [request.auth.user]; no token: [None] *)
  query_params : QueryDict;
  data : list (string * Z)      (* the parsed body *)
}.

Inductive ResponseClass :=
| Response                      (* rest_framework.response.Response *)
| HttpResponseServerError.      (* django.http.HttpResponseServerError *)

Inductive Content :=
| EmptyObject                              (* {} *)
| NoContent                                (* None *)
| Message (s : string)                     (* {'message': s} *)
| ProductData (p : Product.t)              (* one serialized product *)
| ProductList (l : list Product.t)         (* serialized products, in order *)
| ExceptionText (e : exn).                 (* str(ex) *)

Record HttpResponse := {
  cls : ResponseClass;
  content : Content;
  status_code : Z
}.

(** The status a response class has when the constructor is given none. *)
Definition class_status_code (c : ResponseClass) : Z :=
  match c with
  | Response => 200
  | HttpResponseServerError => 500
  end.

(** [cls(content, status=status)]: both classes derive from Django's
    [HttpResponseBase], whose constructor stores a given [status] in the
    instance's [status_code] and otherwise leaves the class's value. *)
Definition new (c : ResponseClass) (body : Content) (status : option Z)
  : HttpResponse :=
  {| cls := c; content := body;
     status_code := match status with
                    | Some s => s
                    | None => class_status_code c
                    end |}.

(** [rest_framework.status]: the constants the view names. Attribute
    names are case-sensitive; a name the module does not define raises
    [AttributeError]. *)
Module status.

Definition constants : list (string * Z) :=
  [ ("HTTP_200_OK", 200);
    ("HTTP_201_CREATED", 201);
    ("HTTP_204_NO_CONTENT", 204);
    ("HTTP_400_BAD_REQUEST", 400);
    ("HTTP_404_NOT_FOUND", 404);
    ("HTTP_422_UNPROCESSABLE_ENTITY", 422);
    ("HTTP_500_INTERNAL_SERVER_ERROR", 500) ].

Definition getattr (name : string) : result Z :=
  match find (fun kv => String.eqb (fst kv) name) constants with
  | Some kv => Ok (snd kv)
  | None => Raise (AttributeError "rest_framework.status" name)
  end.

End status.

(** ** The monad of handler code

    A handler runs against the database, may change it, and either returns
    a value or raises. Changes made before a raise stay (the view declares
    no transaction). *)
Definition M (A : Type) : Type := Database -> result A * Database.

Definition ret {A : Type} (a : A) : M A := fun db => (Ok a, db).

Definition raise {A : Type} (e : exn) : M A := fun db => (Raise e, db).

Definition bind {A B : Type} (m : M A) (k : A -> M B) : M B :=
  fun db =>
    match m db with
    | (Ok a, db') => k a db'
    | (Raise e, db') => (Raise e, db')
    end.

Definition lift {A : Type} (r : result A) : M A := fun db => (r, db).

Definition read {A : Type} (f : Database -> A) : M A :=
  fun db => (Ok (f db), db).

Definition write (f : Database -> Database) : M unit :=
  fun db => (Ok tt, f db).

(** [try: body  except <catches> as ex: handler ex]. *)
Definition try_except {A : Type} (body : M A) (catches : exn -> bool)
  (handler : exn -> M A) : M A :=
  fun db =>
    match body db with
    | (Raise e, db') => if catches e then handler e db' else (Raise e, db')
    | r => r
    end.

Declare Scope M_scope.
Delimit Scope M_scope with M.
Notation "x <- m ;; k" := (bind m (fun x => k))
  (at level 61, m at next level, right associativity) : M_scope.
Notation "m ;; k" := (bind m (fun _ => k))
  (at level 61, right associativity) : M_scope.
Local Open Scope M_scope.

(** [for x in xs: body x], collecting what the bodies return. *)
Fixpoint for_each {A B : Type} (xs : list A) (body : A -> M B) : M (list B) :=
  match xs with
  | [] => ret []
  | x :: r => b <- body x ;; bs <- for_each r body ;; ret (b :: bs)
  end.

(** ** The ORM *)

(** [Model.objects.get(...)]: the one matching row; none or several raise. *)
Definition objects_get {A : Type} (m : Model) (matches : A -> bool)
  (rows : list A) : result A :=
  match filter matches rows with
  | [] => Raise (DoesNotExist m)
  | [x] => Ok x
  | _ :: _ :: _ => Raise (MultipleObjectsReturned m)
  end.

(** Columns of Product that a query can order by, and their names. *)
Inductive Column :=
| c_id | c_name | c_price | c_description | c_quantity | c_location
| c_created_date | c_image_path | c_number_sold | c_average_rating
| c_category | c_customer.

Definition column_names : list (string * Column) :=
  [ ("id", c_id); ("pk", c_id); ("name", c_name); ("price", c_price);
    ("description", c_description); ("quantity", c_quantity);
    ("location", c_location); ("created_date", c_created_date);
    ("image_path", c_image_path); ("number_sold", c_number_sold);
    ("average_rating", c_average_rating);
    ("category", c_category); ("category_id", c_category);
    ("customer", c_customer); ("customer_id", c_customer) ].

Definition column_of (s : string) : option Column :=
  option_map snd (find (fun kv => String.eqb (fst kv) s) column_names).

Definition column_leb (c : Column) (a b : Product.t) : bool :=
  match c with
  | c_id => Product.id a <=? Product.id b
  | c_name => String.leb (Product.name a) (Product.name b)
  | c_price => Qle_bool (Product.price a) (Product.price b)
  | c_description => String.leb (Product.description a) (Product.description b)
  | c_quantity => Product.quantity a <=? Product.quantity b
  | c_location => String.leb (Product.location a) (Product.location b)
  | c_created_date => Product.created_date a <=? Product.created_date b
  | c_image_path => String.leb (Product.image_path a) (Product.image_path b)
  | c_number_sold => Product.number_sold a <=? Product.number_sold b
  | c_average_rating =>
      Qle_bool (Product.average_rating a) (Product.average_rating b)
  | c_category => Product.category a <=? Product.category b
  | c_customer => Product.customer a <=? Product.customer b
  end.

Record Ordering := { descending : bool; column : Column }.

(** [a] may stand before [b] under the ordering. *)
Definition ordering_leb (o : Ordering) (a b : Product.t) : bool :=
  if descending o then column_leb (column o) b a
  else column_leb (column o) a b.

(** The argument of [order_by]: a column name, with [-] in front for
    descending order. A name that is no column raises [FieldError].

    Modelled from the spec: the names are those of the attributes the
    specification gives a Product ([models/product.py] is not among the
    sources), with [pk] and the [_id] names of its two references. Names
    that follow a relation into another model ([category__name]) need
    declarations that are not among the sources and are not covered:
    nothing below depends on how [order_by] answers them. *)
Definition parse_ordering (s : string) : result Ordering :=
  match s with
  | String "-"%char r =>
      match column_of r with
      | Some c => Ok {| descending := true; column := c |}
      | None => Raise (FieldError r)
      end
  | _ =>
      match column_of s with
      | Some c => Ok {| descending := false; column := c |}
      | None => Raise (FieldError s)
      end
  end.

(** Stable insertion sort: [x], which came first, goes before the first
    element it may stand before. *)
Fixpoint insert_by {A : Type} (leb : A -> A -> bool) (x : A) (l : list A)
  : list A :=
  match l with
  | [] => [x]
  | y :: r => if leb x y then x :: l else y :: insert_by leb x r
  end.

Definition sort_by {A : Type} (leb : A -> A -> bool) (l : list A) : list A :=
  fold_right (insert_by leb) [] l.

(** The conditions a Product query can carry. *)
Inductive Lookup :=
| location__contains (s : string)
| category__id (c : Z)
| liked__pk (k : Z).     (* joins UserLike through its [liked] relation *)

(** A lazy query on Product: nothing is read until it is iterated. *)
Record QuerySet := {
  lookups : list Lookup;
  ordering : option Ordering;
  stop : option nat
}.

Definition apply_lookup (db : Database) (l : Lookup) (rows : list Product.t)
  : list Product.t :=
  match l with
  | location__contains s =>
      filter (fun p => like_contains (case_sensitive_like db) s
                         (Product.location p))
             rows
  | category__id c =>
      filter (fun p => Product.category p =? c) rows
  | liked__pk k =>
      (* INNER JOIN: one result row per matching UserLike row *)
      flat_map
        (fun p =>
           map (fun _ => p)
               (filter (fun l => (UserLike.product l =? Product.id p)
                                 && (UserLike.id l =? k))
                       (userlikes db)))
        rows
  end.

(** Running the query: WHERE, then ORDER BY, then LIMIT. *)
Definition rows_of (db : Database) (qs : QuerySet) : list Product.t :=
  let matching :=
    fold_left (fun rows l => apply_lookup db l rows) (lookups qs) (products db) in
  let ordered :=
    match ordering qs with
    | Some o => sort_by (ordering_leb o) matching
    | None => matching
    end in
  match stop qs with
  | Some n => firstn n ordered
  | None => ordered
  end.

Module QS.

(** [Product.objects.all()] *)
Definition all : QuerySet :=
  {| lookups := []; ordering := None; stop := None |}.

(** [qs.filter(...)]: Django refuses to filter a sliced query. *)
Definition filter (l : Lookup) (qs : QuerySet) : result QuerySet :=
  match stop qs with
  | Some _ => Raise (TypeError "Cannot filter a query once a slice has been taken.")
  | None => Ok {| lookups := lookups qs ++ [l];
                  ordering := ordering qs; stop := None |}
  end.

(** [qs.order_by(s)]: the new ordering replaces the one the query had.
    [order_by("?")] asks for a random order: the order the rows then come
    in is the database's choice, for which the model takes the storage
    order. *)
Definition order_by (s : string) (qs : QuerySet) : result QuerySet :=
  match stop qs with
  | Some _ => Raise (TypeError "Cannot reorder a query once a slice has been taken.")
  | None =>
      if String.eqb s "?"
      then Ok {| lookups := lookups qs; ordering := None; stop := None |}
      else
        match parse_ordering s with
        | Ok o =>
            Ok {| lookups := lookups qs; ordering := Some o; stop := None |}
        | Raise e => Raise e
        end
  end.

(** [qs[:n]] *)
Definition slice_to (n : Z) (qs : QuerySet) : result QuerySet :=
  if n <? 0 then Raise NegativeIndexing
  else Ok {| lookups := lookups qs; ordering := ordering qs;
             stop := Some (match stop qs with
                           | Some m => Nat.min m (Z.to_nat n)
                           | None => Z.to_nat n
                           end) |}.

End QS.

(** ** Python iterables

    What the [products] variable of [list] holds: a query, or the lazy
    [filter(f, products)] of an iterable. Nothing runs until the
    serializer iterates; then each row is pulled through the filters,
    innermost first, one row at a time. *)
Inductive Iterable :=
| Query (qs : QuerySet)
| PyFilter (f : Product.t -> result bool) (it : Iterable).

Fixpoint source (it : Iterable) : QuerySet :=
  match it with
  | Query qs => qs
  | PyFilter _ it' => source it'
  end.

(** Does row [p] come out of [it]? *)
Fixpoint passes (it : Iterable) (p : Product.t) : result bool :=
  match it with
  | Query _ => Ok true
  | PyFilter f it' =>
      match passes it' p with
      | Ok true => f p
      | r => r
      end
  end.

Fixpoint pull (keep : Product.t -> result bool) (rows : list Product.t)
  : result (list Product.t) :=
  match rows with
  | [] => Ok []
  | p :: r =>
      match keep p with
      | Raise e => Raise e
      | Ok b =>
          match pull keep r with
          | Raise e => Raise e
          | Ok out => Ok (if b then p :: out else out)
          end
      end
  end.

(** [ProductSerializer(products, many=True).data]: the rows that come out
    of the iterable, in order. *)
Definition serialize (it : Iterable) : M (list Product.t) :=
  fun db => (pull (passes it) (rows_of db (source it)), db).

(** ** Lookups the handlers use *)

(** The product with key [pk], and the customer of a user. *)
Definition product_with (pk : Z) (db : Database) : result Product.t :=
  objects_get ProductM (fun p => Product.id p =? pk) (products db).

Definition customer_of (u : Z) (db : Database) : result Customer.t :=
  objects_get CustomerM (fun c => Customer.user c =? u) (customers db).

Definition Product_objects_get (pk : Z) : M Product.t :=
  fun db => (product_with pk db, db).

(** [request.auth.user]: with no token [request.auth] is [None]. *)
Definition request_auth_user (request : Request) : M Z :=
  match auth request with
  | Some u => ret u
  | None => raise (AttributeError "NoneType" "user")
  end.

(** [Customer.objects.get(user=request.auth.user)] *)
Definition Customer_objects_get (request : Request) : M Customer.t :=
  u <- request_auth_user request ;;
  fun db => (customer_of u db, db).

(** [request.data[key]] *)
Definition request_data (request : Request) (key : string) : M Z :=
  match qget key (data request) with
  | Some v => ret v
  | None => raise (KeyError key)
  end.

Definition status_ (name : string) : M Z := lift (status.getattr name).

(** Saving a new row: the table's sequence issues the next key. *)
Definition insert_productrating (product customer rating : Z)
  (db : Database) : Database :=
  let k := productrating_seq db + 1 in
  {| products := products db;
     customers := customers db;
     productratings :=
       productratings db ++
       [ {| ProductRating.id := k; ProductRating.product := product;
            ProductRating.customer := customer;
            ProductRating.rating := rating |} ];
     userlikes := userlikes db;
     productrating_seq := k;
     userlike_seq := userlike_seq db;
     case_sensitive_like := case_sensitive_like db |}.

Definition insert_userlike (product customer : Z) (db : Database)
  : Database :=
  let k := userlike_seq db + 1 in
  {| products := products db;
     customers := customers db;
     productratings := productratings db;
     userlikes :=
       userlikes db ++
       [ {| UserLike.id := k; UserLike.product := product;
            UserLike.customer := customer |} ];
     productrating_seq := productrating_seq db;
     userlike_seq := k;
     case_sensitive_like := case_sensitive_like db |}.

(** Deleting a row: the row with that key goes. *)
Definition delete_userlike (like : UserLike.t) (db : Database) : Database :=
  {| products := products db;
     customers := customers db;
     productratings := productratings db;
     userlikes :=
       filter (fun l => negb (UserLike.id l =? UserLike.id like))
              (userlikes db);
     productrating_seq := productrating_seq db;
     userlike_seq := userlike_seq db;
     case_sensitive_like := case_sensitive_like db |}.

Definition ProductRating_save (product customer rating : Z) : M unit :=
  write (insert_productrating product customer rating).

Definition UserLike_save (product customer : Z) : M unit :=
  write (insert_userlike product customer).

Definition UserLike_delete (like : UserLike.t) : M unit :=
  write (delete_userlike like).

(** The rows of a product in the two tables. *)
Definition ratings_of (pk : Z) (db : Database) : list ProductRating.t :=
  filter (fun r => ProductRating.product r =? pk) (productratings db).

Definition likes_of (pk : Z) (db : Database) : list UserLike.t :=
  filter (fun l => UserLike.product l =? pk) (userlikes db).

Definition likes_of_pair (pk customer : Z) (db : Database)
  : list UserLike.t :=
  filter (fun l => (UserLike.product l =? pk)
                   && (UserLike.customer l =? customer))
         (userlikes db).

(** [Product.objects.filter(<name>=<value>)] with a boolean value. [name]
    is resolved against the relations that point at Product:
    [UserLike.product] declares [related_name="liked"], so [liked] reaches
    the UserLike rows of a product. A value given for a relation is
    compared with the key of the related row, and for an integer key a
    boolean counts as [int(value)]. A name that resolves to nothing raises
    [FieldError]. *)
Definition Product_objects_filter (name : string) (value : bool)
  : result QuerySet :=
  if existsb (String.eqb name)
       (models.reverse_names ProductM "userlike" models.UserLike)
  then QS.filter (liked__pk (Py.int_of_bool value)) QS.all
  else Raise (FieldError name).

(** [product.<name> = value] on a Product instance. A name under which
    another model reaches Product backwards is a descriptor that Django
    installs on the Product class when that model is loaded (in place of
    whatever attribute of that name the class had); it refuses assignment
    with [TypeError]. [UserLike.product] declares [related_name="liked"],
    so this is what [product.liked = ...] meets. Any other name is set on
    the instance in memory, which touches no table. *)
Definition not_assignable (name : string) : exn :=
  TypeError
    ("Direct assignment to the reverse side of a related set is prohibited. Use "
     ++ name ++ ".set() instead.").

Definition Product_setattr (name : string) : M unit :=
  if existsb (String.eqb name)
       (models.reverse_names ProductM "userlike_set" models.UserLike)
  then raise (not_assignable name)
  else ret tt.

(** ** The handlers of [Products] *)
Module Products.

(** [retrieve], lines 160 to 165. *)
Definition retrieve (request : Request) (pk : Z) : M HttpResponse :=
  try_except
    (product <- Product_objects_get pk ;;
     ret (new Response (ProductData product) None))
    (is_DoesNotExist ProductM)
    (fun ex =>
       code <- status_ "HTTP_404_NOT_FOUND" ;;
       ret (new HttpResponseServerError (ExceptionText ex) (Some code))).

(** The loop of [list], lines 255 to 264: for every product, the
    customer of the caller, then [product.liked = None], then the lookup of
    the customer's like with [product.liked = True] or, in the [except]
    clause, [product.liked = False]. What a turn returns is the flag it
    set. *)
Definition annotate_liked (request : Request) (rows : list Product.t)
  : M (list bool) :=
  for_each rows (fun product =>
    customer <- Customer_objects_get request ;;
    Product_setattr "liked" ;;
    try_except
      (_ <- (fun db =>
               (objects_get UserLikeM
                  (fun l => (UserLike.customer l =? Customer.id customer)
                            && (UserLike.product l =? Product.id product))
                  (userlikes db), db)) ;;
       Product_setattr "liked" ;;
       ret true)
      (is_DoesNotExist UserLikeM)
      (fun _ => Product_setattr "liked" ;; ret false)).

Definition sold_filter (number_sold : string) (product : Product.t)
  : result bool :=
  match Py.int number_sold with
  | Ok n => Ok (n <=? Product.number_sold product)
  | Raise e => Raise e
  end.

Definition price_filter (min_price : string) (product : Product.t)
  : result bool :=
  match Py.int min_price with
  | Ok n => Ok (Qle_bool (inject_Z n) (Product.price product))
  | Raise e => Raise e
  end.

(** The argument [list] gives to [order_by], lines 279 to 283: the field,
    negated when the direction is the string [desc]. *)
Definition order_filter (order : string) (direction : option string)
  : string :=
  match direction with
  | Some direction =>
      if String.eqb direction "desc" then "-" ++ order else order
  | None => order
  end.

(** The query that [list] builds from [products], lines 275 to 291:
    none of these steps reads the database. *)
Definition list_query (request : Request) (products : QuerySet)
  : result QuerySet :=
  let category := qget "category" (query_params request) in
  let quantity := qget "quantity" (query_params request) in
  let order := qget "order_by" (query_params request) in
  let direction := qget "direction" (query_params request) in
  let location := qget "location" (query_params request) in
  and_then
    match location with
    | Some location => QS.filter (location__contains location) products
    | None => Ok products
    end (fun products =>
  and_then
    match order with
    | Some order => QS.order_by (order_filter order direction) products
    | None => Ok products
    end (fun products =>
  and_then
    match category with
    | Some category =>
        and_then (Py.int category) (fun c =>
        QS.filter (category__id c) products)
    | None => Ok products
    end (fun products =>
    match quantity with
    | Some quantity =>
        and_then (QS.order_by "-created_date" products) (fun ordered =>
        and_then (Py.int quantity) (fun n =>
        QS.slice_to n ordered))
    | None => Ok products
    end))).

(** [list], lines 253 to 309: the loop over all products, the query, the
    two lazy filters, and the serializer, which is what iterates them.
    The response carries the products in order; how each one's [liked]
    field is rendered is not part of it. *)
Definition list (request : Request) : M HttpResponse :=
  let products := QS.all in
  rows <- read (fun db => rows_of db products) ;;
  _ <- annotate_liked request rows ;;
  let number_sold := qget "number_sold" (query_params request) in
  let min_price := qget "min_price" (query_params request) in
  products <- lift (list_query request products) ;;
  let products := Query products in
  let products :=
    match number_sold with
    | Some number_sold => PyFilter (sold_filter number_sold) products
    | None => products
    end in
  let products :=
    match min_price with
    | Some min_price => PyFilter (price_filter min_price) products
    | None => products
    end in
  data <- serialize products ;;
  ret (new Response (ProductList data) None).

(** [rate], lines 313 to 334. A handler that falls off its end returns
    [None]. *)
Definition rate (request : Request) (pk : Z) : M (option HttpResponse) :=
  if String.eqb (method request) "POST" then
    product <- Product_objects_get pk ;;
    customer <- Customer_objects_get request ;;
    try_except
      (current_user_rating <-
         (fun db =>
            (objects_get ProductRatingM
               (fun r => ProductRating.product r =? Product.id product)
               (productratings db), db)) ;;
       code <- status_ "HTTP_422_UNPROCESSABLE_ENTITY" ;;
       ret (Some (new Response
                      (Message "You have already rated this product")
                      (Some code))))
      (is_DoesNotExist ProductRatingM)
      (fun _ =>
         rating <- request_data request "rating" ;;
         ProductRating_save (Product.id product) (Customer.id customer) rating ;;
         code <- status_ "HTTP_201_CREATED" ;;
         ret (Some (new Response EmptyObject (Some code))))
  else ret None.

(** [like], lines 337 to 382. *)
Definition like (request : Request) (pk : Z) : M (option HttpResponse) :=
  if String.eqb (method request) "POST" then
    product <- Product_objects_get pk ;;
    customer <- Customer_objects_get request ;;
    try_except
      (current_user_like <-
         (fun db =>
            (objects_get UserLikeM
               (fun l => UserLike.product l =? Product.id product)
               (userlikes db), db)) ;;
       code <- status_ "HTTP_422_UNPROCESSABLE_ENTITY" ;;
       ret (Some (new Response
                      (Message "You have already liked this product")
                      (Some code))))
      (is_DoesNotExist UserLikeM)
      (fun _ =>
         UserLike_save (Product.id product) (Customer.id customer) ;;
         code <- status_ "HTTP_201_CREATED" ;;
         ret (Some (new Response EmptyObject (Some code))))
  else if String.eqb (method request) "DELETE" then
    found <-
      try_except
        (product <- Product_objects_get pk ;; ret (inl product))
        (is_DoesNotExist ProductM)
        (fun _ =>
           code <- status_ "HTTP_400_BAD_REQUEST" ;;
           ret (inr (new Response (Message "Product does not exist")
                         (Some code)))) ;;
    match found with
    | inr response => ret (Some response)
    | inl product =>
        customer <- Customer_objects_get request ;;
        try_except
          (current_user_like <-
             (fun db =>
                (objects_get UserLikeM
                   (fun l => (UserLike.product l =? Product.id product)
                             && (UserLike.customer l =? Customer.id customer))
                   (userlikes db), db)) ;;
           UserLike_delete current_user_like ;;
           code <- status_ "HTTP_204_NO_CONTENT" ;;
           ret (Some (new Response NoContent (Some code))))
          (is_DoesNotExist UserLikeM)
          (fun _ =>
             code <- status_ "HTTP_404_NOT_found" ;;
             ret (Some (new Response
                            (Message "You cannot unlike this product")
                            (Some code))))
    end
  else ret None.

(** [liked], lines 384 to 391. *)
Definition liked (request : Request) : M (option HttpResponse) :=
  if String.eqb (method request) "GET" then
    products <- lift (Product_objects_filter "liked" true) ;;
    data <- serialize (Query products) ;;
    ret (Some (new Response (ProductList data) None))
  else ret None.

End Products.

(** ** Sample data *)
Module Sample.

Definition kite : Product.t := {|
  Product.id := 1; Product.name := "Kite"; Product.price := 1499 # 100;
  Product.description := "It flies high"; Product.quantity := 60;
  Product.location := "Pittsburgh"; Product.created_date := 737355;
  Product.image_path := ""; Product.number_sold := 3;
  Product.average_rating := 0; Product.category := 4; Product.customer := 1 |}.

Definition ball : Product.t := {|
  Product.id := 2; Product.name := "Ball"; Product.price := 5 # 1;
  Product.description := "It bounces"; Product.quantity := 10;
  Product.location := "Nashville"; Product.created_date := 737360;
  Product.image_path := ""; Product.number_sold := 0;
  Product.average_rating := 0; Product.category := 4; Product.customer := 1 |}.

Definition lamp : Product.t := {|
  Product.id := 3; Product.name := "Lamp"; Product.price := 12 # 1;
  Product.description := "It shines"; Product.quantity := 2;
  Product.location := "Nashville"; Product.created_date := 737360;
  Product.image_path := ""; Product.number_sold := 7;
  Product.average_rating := 0; Product.category := 6; Product.customer := 2 |}.

Definition anna : Customer.t := {| Customer.id := 1; Customer.user := 10 |}.
Definition ben : Customer.t := {| Customer.id := 2; Customer.user := 20 |}.

(** Three products, two customers, no rating and no like yet. *)
Definition shop : Database := {|
  products := [kite; ball; lamp];
  customers := [anna; ben];
  productratings := [];
  userlikes := [];
  productrating_seq := 0;
  userlike_seq := 0;
  case_sensitive_like := false |}.

(** The shop before its first product. *)
Definition opening : Database := {|
  products := [];
  customers := [anna; ben];
  productratings := [];
  userlikes := [];
  productrating_seq := 0;
  userlike_seq := 0;
  case_sensitive_like := false |}.

Definition like_of (k p c : Z) : UserLike.t :=
  {| UserLike.id := k; UserLike.product := p; UserLike.customer := c |}.

Definition with_likes (ls : list UserLike.t) (db : Database) : Database :=
  {| products := products db; customers := customers db;
     productratings := productratings db; userlikes := ls;
     productrating_seq := productrating_seq db;
     userlike_seq := Z.of_nat (List.length ls);
     case_sensitive_like := case_sensitive_like db |}.

(** The kite liked by both customers. *)
Definition liked_twice : Database :=
  with_likes [like_of 1 1 1; like_of 2 1 2] shop.

(** A request of the customer whose user is [u]. *)
Definition request_of (m : string) (u : Z) (q : QueryDict)
  (body : list (string * Z)) : Request :=
  {| method := m; auth := Some u; query_params := q; data := body |}.

End Sample.

Definition option_string_eqb (a b : option string) : bool :=
  match a, b with
  | Some x, Some y => String.eqb x y
  | None, None => true
  | _, _ => false
  end.

(** Two query strings give the same value (or none) for every key of
    [keys]. *)
Definition agree_on (keys : list string) (q q' : QueryDict) : bool :=
  forallb (fun k => option_string_eqb (qget k q) (qget k q')) keys.

(** The (product, customer) pair of a like, as a key. *)
Definition pair_key (l : UserLike.t) : list (option Z) :=
  map (fun c => UserLike_column c l) ["product"; "customer"].

(** Unfolding a handler down to the table lookups. *)
Ltac run_handler :=
  unfold Product_objects_get, Customer_objects_get, request_auth_user,
    request_data, status_, ProductRating_save, UserLike_save,
    UserLike_delete, try_except, bind, ret, raise, lift, write.

(** ** Deleting a product

    [destroy], lines 212 to 222 of [views/product.py]. [product.delete()]
    removes the row and, before that, what points at it: the likes go with
    it, since [UserLike.product] is declared with [on_delete=CASCADE]. The
    declaration of ProductRating is not among the sources, so what the
    deletion does to the ratings of the product (remove them, refuse, ...)
    is the parameter [on_delete_ratings]: it either gives the ratings table
    that is left or raises, and in that case nothing is deleted. The text
    [ex.args[0]] of an exception is the framework's: the parameter
    [args0]. *)
Section Destroy.

Variable on_delete_ratings :
  Z -> list ProductRating.t -> result (list ProductRating.t).
Variable args0 : exn -> string.

Definition Product_delete (product : Product.t) : M unit :=
  fun db =>
    match on_delete_ratings (Product.id product) (productratings db) with
    | Raise e => (Raise e, db)
    | Ok left_ratings =>
        (Ok tt,
         {| products :=
              filter (fun p => negb (Product.id p =? Product.id product))
                     (products db);
            customers := customers db;
            productratings := left_ratings;
            userlikes :=
              filter (fun l => negb (UserLike.product l =? Product.id product))
                     (userlikes db);
            productrating_seq := productrating_seq db;
            userlike_seq := userlike_seq db;
     case_sensitive_like := case_sensitive_like db |})
    end.

(** [try: body  except <first> as ex: ...  except Exception as ex: ...]:
    the clauses are tried in order on an exception of the body; what a
    clause itself raises is not caught. *)
Definition try_except_Exception {A : Type} (body : M A)
  (first : exn -> bool) (handler : exn -> M A) (otherwise : exn -> M A)
  : M A :=
  try_except body (fun _ => true)
    (fun ex => if first ex then handler ex else otherwise ex).

Definition destroy (request : Request) (pk : Z) : M HttpResponse :=
  try_except_Exception
    (product <- Product_objects_get pk ;;
     Product_delete product ;;
     code <- status_ "HTTP_204_NO_CONTENT" ;;
     ret (new Response EmptyObject (Some code)))
    (is_DoesNotExist ProductM)
    (fun ex =>
       code <- status_ "HTTP_404_NOT_FOUND" ;;
       ret (new Response (Message (args0 ex)) (Some code)))
    (fun ex =>
       code <- status_ "HTTP_500_INTERNAL_SERVER_ERROR" ;;
       ret (new Response (Message (args0 ex)) (Some code))).

End Destroy.

(** The database a deletion of the product with key [pk] leaves, when
    [left_ratings] is what it leaves of the ratings. *)
Definition without_product (pk : Z) (left_ratings : list ProductRating.t)
  (db : Database) : Database :=
  {| products := filter (fun p => negb (Product.id p =? pk)) (products db);
     customers := customers db;
     productratings := left_ratings;
     userlikes :=
       filter (fun l => negb (UserLike.product l =? pk)) (userlikes db);
     productrating_seq := productrating_seq db;
     userlike_seq := userlike_seq db;
     case_sensitive_like := case_sensitive_like db |}.

(** A reading of the parameters, for examples: ratings declared with
    CASCADE as well, and the text of the exceptions. *)
Definition ratings_cascade (pk : Z) (rows : list ProductRating.t)
  : result (list ProductRating.t) :=
  Ok (filter (fun r => negb (ProductRating.product r =? pk)) rows).

Definition plain_args0 (e : exn) : string :=
  match e with
  | DoesNotExist ProductM => "Product matching query does not exist."
  | _ => "error"
  end.

(** ** Conditions on a database *)

(** No two products share a key. *)
Definition product_keys_unique (db : Database) : bool :=
  distinctb Z.eqb (map Product.id (products db)).

(** No like carries a key that the sequence has yet to issue. *)
Definition like_keys_issued (db : Database) : bool :=
  forallb (fun l => UserLike.id l <=? userlike_seq db) (userlikes db).

(** No product has two likes, or two ratings. *)
Definition one_like_per_product (db : Database) : bool :=
  distinctb Z.eqb (map UserLike.product (userlikes db)).

Definition one_rating_per_product (db : Database) : bool :=
  distinctb Z.eqb (map ProductRating.product (productratings db)).

(** Every like points at a product of the table. *)
Definition likes_have_products (db : Database) : bool :=
  forallb (fun l => existsb (fun p => Product.id p =? UserLike.product l)
                            (products db))
          (userlikes db).

(** The row a like POST stores, and the one a rate POST stores. *)
Definition new_like (pk customer : Z) (db : Database) : UserLike.t :=
  {| UserLike.id := userlike_seq db + 1; UserLike.product := pk;
     UserLike.customer := customer |}.

Definition new_rating (pk customer rating : Z) (db : Database)
  : ProductRating.t :=
  {| ProductRating.id := productrating_seq db + 1;
     ProductRating.product := pk; ProductRating.customer := customer;
     ProductRating.rating := rating |}.

(** The likes table is in order: it satisfies the UserLike class, its
    keys were issued by the sequence, no product has two likes, and every
    like points at a product. *)
Definition likes_consistent (db : Database) : bool :=
  satisfies models.UserLike (userlikes db)
  && like_keys_issued db
  && one_like_per_product db
  && likes_have_products db.

(** ** Serving requests

    A call names a handler of the view set and the key it is given; the
    service runs the calls of a list one after the other, each on the
    database the previous one left (whether it answered or raised). *)
Inductive Call :=
| Retrieve (pk : Z)
| List_
| Rate (pk : Z)
| Like (pk : Z)
| Liked
| Destroy (pk : Z).

Section Service.

Variable on_delete_ratings :
  Z -> list ProductRating.t -> result (list ProductRating.t).
Variable args0 : exn -> string.

Definition serve (call : Call) (request : Request) (db : Database)
  : Database :=
  match call with
  | Retrieve pk => snd (Products.retrieve request pk db)
  | List_ => snd (Products.list request db)
  | Rate pk => snd (Products.rate request pk db)
  | Like pk => snd (Products.like request pk db)
  | Liked => snd (Products.liked request db)
  | Destroy pk => snd (destroy on_delete_ratings args0 request pk db)
  end.

Fixpoint serve_all (calls : list (Call * Request)) (db : Database)
  : Database :=
  match calls with
  | [] => db
  | (call, request) :: rest => serve_all rest (serve call request db)
  end.

End Service.

(** ** The embedding on the sample shop *)

Example int_of_literal : Py.int "10" = Ok 10.
Proof. reflexivity. Qed.

Example int_of_padded_literal : Py.int " -1_000 " = Ok (-1000).
Proof. reflexivity. Qed.

Example int_of_fraction : Py.int "10.5" = Raise (ValueError "10.5").
Proof. reflexivity. Qed.

Example int_of_doubled_underscore : Py.int "1__0" = Raise (ValueError "1__0").
Proof. reflexivity. Qed.

Example contains_inside : contains "ash" "Nashville" = true.
Proof. reflexivity. Qed.

Example contains_is_case_sensitive : contains "nash" "Nashville" = false.
Proof. reflexivity. Qed.

Example like_ignores_case :
  like_contains false "nash" "Nashville" = true
  /\ like_contains true "nash" "Nashville" = false.
Proof. split; reflexivity. Qed.

Example int_of_separator :
  Py.int (String (ascii_of_nat 28) "1")
  = Raise (ValueError (String (ascii_of_nat 28) "1")).
Proof. reflexivity. Qed.

Example qget_last_value :
  qget "category" [("category", "4"); ("category", "6")] = Some "6".
Proof. reflexivity. Qed.

Example list_on_the_shop :
  Products.list (Sample.request_of "GET" 10 [] []) Sample.shop
  = (Raise (not_assignable "liked"), Sample.shop).
Proof. reflexivity. Qed.

Example list_before_the_first_product :
  Products.list
    {| method := "GET"; auth := None;
       query_params := [("min_price", "a lot")]; data := [] |}
    Sample.opening
  = (Ok (new Response (ProductList []) None), Sample.opening).
Proof. reflexivity. Qed.

Example list_without_token :
  fst (Products.list
         {| method := "GET"; auth := None; query_params := []; data := [] |}
         Sample.shop)
  = Raise (AttributeError "NoneType" "user").
Proof. reflexivity. Qed.

Example unlike_own_like :
  Products.like (Sample.request_of "DELETE" 10 [] []) 1
    (Sample.with_likes [Sample.like_of 1 1 1] Sample.shop)
  = (Ok (Some (new Response NoContent (Some 204))),
     delete_userlike (Sample.like_of 1 1 1)
       (Sample.with_likes [Sample.like_of 1 1 1] Sample.shop)).
Proof. reflexivity. Qed.

Example rate_with_put_returns_nothing :
  fst (Products.rate (Sample.request_of "PUT" 10 [] [("rating", 5)]) 1
         Sample.shop)
  = Ok None.
Proof. reflexivity. Qed.

(** ** Monad and list lemmas *)

Lemma pull_pure (f : Product.t -> result bool) (b : Product.t -> bool)
  (rows : list Product.t) :
  (forall p, f p = Ok (b p)) -> pull f rows = Ok (filter b rows).
Proof.
  intros E. induction rows as [|p r IH]; simpl; [reflexivity|].
  rewrite E, IH. destruct (b p); reflexivity.
Qed.

Lemma bind_ret {A B : Type} (a : A) (k : A -> M B) (db : Database) :
  bind (ret a) k db = k a db.
Proof. reflexivity. Qed.

Lemma bind_lift {A B : Type} (r : result A) (k : A -> M B) (db : Database) :
  bind (lift r) k db
  = match r with Ok a => k a db | Raise e => (Raise e, db) end.
Proof. destruct r; reflexivity. Qed.

Lemma bind_serialize {B : Type} (it : Iterable) (k : list Product.t -> M B)
  (db : Database) :
  bind (serialize it) k db
  = match pull (passes it) (rows_of db (source it)) with
    | Ok rows => k rows db
    | Raise e => (Raise e, db)
    end.
Proof. reflexivity. Qed.

(** ** Lookups by key *)

Lemma objects_get_Ok {A : Type} (m : Model) (f : A -> bool) (rows : list A)
  (x : A) :
  objects_get m f rows = Ok x -> filter f rows = [x].
Proof.
  unfold objects_get. destruct (filter f rows) as [|y [|z r]]; intros H;
    inversion H; reflexivity.
Qed.

Lemma objects_get_none {A : Type} (m : Model) (f : A -> bool) (rows : list A) :
  existsb f rows = false -> objects_get m f rows = Raise (DoesNotExist m).
Proof.
  intros H. unfold objects_get.
  assert (E : filter f rows = []).
  { induction rows as [|a r IH]; simpl in *; [reflexivity|].
    apply orb_false_iff in H. destruct H as [Ha Hr]. rewrite Ha. auto. }
  rewrite E. reflexivity.
Qed.

Lemma product_with_id (pk : Z) (db : Database) (p : Product.t) :
  product_with pk db = Ok p -> Product.id p = pk.
Proof.
  intros H. apply objects_get_Ok in H.
  assert (I : In p (filter (fun p => Product.id p =? pk) (products db))).
  { rewrite H. left. reflexivity. }
  apply filter_In in I. destruct I as [_ I]. apply Z.eqb_eq in I. exact I.
Qed.

(** What [rate] does with a POST of a registered customer on an existing
    product, by the number of ratings the product has. *)
Lemma rate_post_cases (request : Request) (pk : Z) (db : Database)
  (product : Product.t) (customer : Customer.t) (u : Z) :
  method request = "POST" ->
  product_with pk db = Ok product ->
  auth request = Some u ->
  customer_of u db = Ok customer ->
  Products.rate request pk db =
    match ratings_of pk db with
    | [] =>
        match qget "rating" (data request) with
        | Some rating =>
            (Ok (Some (new Response EmptyObject (Some 201))),
             insert_productrating pk (Customer.id customer) rating db)
        | None => (Raise (KeyError "rating"), db)
        end
    | [_] =>
        (Ok (Some (new Response
                       (Message "You have already rated this product")
                       (Some 422))), db)
    | _ :: _ :: _ => (Raise (MultipleObjectsReturned ProductRatingM), db)
    end.
Proof.
  intros Hm Hp Ha Hc.
  pose proof (product_with_id _ _ _ Hp) as Hid.
  unfold Products.rate. rewrite Hm, String.eqb_refl.
  run_handler. rewrite Hp, Ha, Hc, Hid.
  unfold objects_get, ratings_of.
  destruct (filter _ (productratings db)) as [|r [|r' rs]]; simpl.
  - destruct (qget "rating" (data request)); reflexivity.
  - reflexivity.
  - reflexivity.
Qed.

(** ** Liking and unliking a product *)

(** What [like] does with a POST of a registered customer on an existing
    product, by the number of likes the product has. *)
Lemma like_post_cases (request : Request) (pk : Z) (db : Database)
  (product : Product.t) (customer : Customer.t) (u : Z) :
  method request = "POST" ->
  product_with pk db = Ok product ->
  auth request = Some u ->
  customer_of u db = Ok customer ->
  Products.like request pk db =
    match likes_of pk db with
    | [] =>
        (Ok (Some (new Response EmptyObject (Some 201))),
         insert_userlike pk (Customer.id customer) db)
    | [_] =>
        (Ok (Some (new Response
                       (Message "You have already liked this product")
                       (Some 422))), db)
    | _ :: _ :: _ => (Raise (MultipleObjectsReturned UserLikeM), db)
    end.
Proof.
  intros Hm Hp Ha Hc.
  pose proof (product_with_id _ _ _ Hp) as Hid.
  unfold Products.like. rewrite Hm, String.eqb_refl.
  run_handler. rewrite Hp, Ha, Hc, Hid.
  unfold objects_get, likes_of.
  destruct (filter _ (userlikes db)) as [|l [|l' ls]]; reflexivity.
Qed.

(** A DELETE for a key that no product has. *)
Lemma like_delete_no_product (request : Request) (pk : Z) (db : Database) :
  method request = "DELETE" ->
  existsb (fun p => Product.id p =? pk) (products db) = false ->
  Products.like request pk db
  = (Ok (Some (new Response (Message "Product does not exist") (Some 400))),
     db).
Proof.
  intros Hm Hp. unfold Products.like. rewrite Hm.
  change (String.eqb "DELETE" "POST") with false.
  rewrite String.eqb_refl.
  run_handler. unfold product_with.
  rewrite (objects_get_none ProductM _ _ Hp). reflexivity.
Qed.

(** A DELETE of a registered customer on an existing product, by the
    number of likes the pair has. *)
Lemma like_delete_cases (request : Request) (pk : Z) (db : Database)
  (product : Product.t) (customer : Customer.t) (u : Z) :
  method request = "DELETE" ->
  product_with pk db = Ok product ->
  auth request = Some u ->
  customer_of u db = Ok customer ->
  Products.like request pk db =
    match likes_of_pair pk (Customer.id customer) db with
    | [] =>
        (Raise (AttributeError "rest_framework.status" "HTTP_404_NOT_found"),
         db)
    | [l] =>
        (Ok (Some (new Response NoContent (Some 204))), delete_userlike l db)
    | _ :: _ :: _ => (Raise (MultipleObjectsReturned UserLikeM), db)
    end.
Proof.
  intros Hm Hp Ha Hc.
  pose proof (product_with_id _ _ _ Hp) as Hid.
  unfold Products.like. rewrite Hm.
  change (String.eqb "DELETE" "POST") with false.
  rewrite String.eqb_refl.
  run_handler. rewrite Hp, Ha, Hc, Hid.
  unfold objects_get, likes_of_pair.
  destruct (filter _ (userlikes db)) as [|l [|l' ls]]; reflexivity.
Qed.

(** C2 at the input where it fails: the kite exists, Anna has no like on
    it, and her DELETE ends in AttributeError, because the handler names
    [status.HTTP_404_NOT_found] while the module defines
    [HTTP_404_NOT_FOUND]; no 404 response is built. *)
Theorem like_delete_absent_like_raises :
  product_with 1 Sample.shop = Ok Sample.kite
  /\ customer_of 10 Sample.shop = Ok Sample.anna
  /\ likes_of_pair 1 1 Sample.shop = []
  /\ status.getattr "HTTP_404_NOT_FOUND" = Ok 404
  /\ status.getattr "HTTP_404_NOT_found"
     = Raise (AttributeError "rest_framework.status" "HTTP_404_NOT_found")
  /\ Products.like (Sample.request_of "DELETE" 10 [] []) 1 Sample.shop
     = (Raise (AttributeError "rest_framework.status" "HTTP_404_NOT_found"),
        Sample.shop).
Proof.
  repeat split; reflexivity.
Qed.

(** ** Retrieving a product *)

(** C3, as the code has it. When no product has key [pk], GET
    /products/{pk} returns an instance of the server-error response class
    (whose own status is 500) carrying the not-found error as its body,
    and the HTTP status of that response is 404: the handler passes
    [status=404] to the constructor, which overrides the class's 500. *)
Theorem retrieve_missing_product (request : Request) (pk : Z)
  (db : Database) :
  existsb (fun p => Product.id p =? pk) (products db) = false ->
  exists response,
    Products.retrieve request pk db = (Ok response, db)
    /\ cls response = HttpResponseServerError
    /\ class_status_code (cls response) = 500
    /\ content response = ExceptionText (DoesNotExist ProductM)
    /\ status_code response = 404.
Proof.
  intros Hp.
  exists (new HttpResponseServerError (ExceptionText (DoesNotExist ProductM))
              (Some 404)).
  repeat split.
  unfold Products.retrieve. run_handler. unfold product_with.
  rewrite (objects_get_none ProductM _ _ Hp). reflexivity.
Qed.

Lemma retrieve_missing_product_witness :
  exists response,
    Products.retrieve (Sample.request_of "GET" 10 [] []) 9 Sample.shop
      = (Ok response, Sample.shop)
    /\ cls response = HttpResponseServerError
    /\ class_status_code (cls response) = 500
    /\ content response = ExceptionText (DoesNotExist ProductM)
    /\ status_code response = 404.
Proof.
  apply (retrieve_missing_product (Sample.request_of "GET" 10 [] []) 9
           Sample.shop).
  reflexivity.
Defined.

(** C3 as stated fails: no product has key 9, and the response to GET
    /products/9 has status 404, not 500. *)
Lemma retrieve_missing_is_not_500 :
  existsb (fun p => Product.id p =? 9) (products Sample.shop) = false
  /\ exists response,
       fst (Products.retrieve (Sample.request_of "GET" 10 [] []) 9 Sample.shop)
         = Ok response
       /\ status_code response = 404
       /\ status_code response <> 500.
Proof.
  split; [reflexivity|].
  eexists. split; [reflexivity|]. split; [reflexivity|discriminate].
Qed.

(** ** The liked products *)

(** C6, as the code has it. GET /products/liked returns 200 with the
    products that the UserLike row with key 1 points at: the keyword
    [liked] names the relation that [UserLike.product] declares, and
    [True] is compared with the key of the related row. A product is in
    the body exactly when such a row exists for it; the body is not tied
    to the requesting customer and is empty only when no such row exists. *)
Theorem liked_lists_products_of_like_1 (request : Request) (db : Database) :
  method request = "GET" ->
  exists rows,
    Products.liked request db
      = (Ok (Some (new Response (ProductList rows) None)), db)
    /\ status_code (new Response (ProductList rows) None) = 200
    /\ (forall p,
          In p rows <->
          In p (products db)
          /\ exists l, In l (userlikes db)
                       /\ UserLike.id l = 1
                       /\ UserLike.product l = Product.id p).
Proof.
  intros Hm.
  exists (rows_of db {| lookups := [liked__pk 1]; ordering := None;
                        stop := None |}).
  split; [|split].
  - unfold Products.liked. rewrite Hm, String.eqb_refl.
    unfold Product_objects_filter.
    change (existsb (String.eqb "liked")
              (models.reverse_names ProductM "userlike" models.UserLike))
      with true.
    cbv iota. unfold QS.filter, QS.all, Py.int_of_bool. simpl stop. cbv iota.
    rewrite bind_lift, bind_serialize. simpl source.
    rewrite (pull_pure _ (fun _ => true)) by reflexivity.
    simpl lookups. simpl app.
    assert (E : forall rows : list Product.t,
               filter (fun _ => true) rows = rows).
    { induction rows as [|a r IH]; simpl; [|rewrite IH]; reflexivity. }
    rewrite E. reflexivity.
  - reflexivity.
  - intros p. unfold rows_of. simpl.
    rewrite in_flat_map. split.
    + intros [p' [Hp' Hin]]. apply in_map_iff in Hin.
      destruct Hin as [l [Heq Hl]]. subst p'.
      apply filter_In in Hl. destruct Hl as [Hl Hb].
      apply andb_true_iff in Hb. destruct Hb as [Hprod Hid].
      apply Z.eqb_eq in Hprod. apply Z.eqb_eq in Hid.
      split; [exact Hp'|]. exists l. auto.
    + intros [Hp [l [Hl [Hid Hprod]]]]. exists p. split; [exact Hp|].
      apply in_map_iff. exists l. split; [reflexivity|].
      apply filter_In. split; [exact Hl|].
      apply andb_true_iff. split; apply Z.eqb_eq; assumption.
Qed.

Lemma liked_lists_products_of_like_1_witness :
  exists rows,
    Products.liked (Sample.request_of "GET" 10 [] []) Sample.liked_twice
      = (Ok (Some (new Response (ProductList rows) None)), Sample.liked_twice)
    /\ status_code (new Response (ProductList rows) None) = 200
    /\ (forall p,
          In p rows <->
          In p (products Sample.liked_twice)
          /\ exists l, In l (userlikes Sample.liked_twice)
                       /\ UserLike.id l = 1
                       /\ UserLike.product l = Product.id p).
Proof.
  apply (liked_lists_products_of_like_1
           (Sample.request_of "GET" 10 [] []) Sample.liked_twice).
  reflexivity.
Defined.

(** C6 as stated fails: once Anna has liked the kite in the sample shop
    (the first like, so its key is 1), GET /products/liked returns the
    kite, not an empty array. *)
Lemma liked_after_first_like_is_not_empty :
  fst (Products.like (Sample.request_of "POST" 10 [] []) 1 Sample.shop)
    = Ok (Some (new Response EmptyObject (Some 201)))
  /\ fst (Products.liked (Sample.request_of "GET" 10 [] [])
            (snd (Products.like (Sample.request_of "POST" 10 [] []) 1
                    Sample.shop)))
     = Ok (Some (new Response (ProductList [Sample.kite]) None))
  /\ fst (Products.liked (Sample.request_of "GET" 10 [] [])
            (snd (Products.like (Sample.request_of "POST" 10 [] []) 1
                    Sample.shop)))
     <> Ok (Some (new Response (ProductList []) None)).
Proof.
  split; [reflexivity|]. split; [reflexivity|].
  vm_compute. discriminate.
Qed.

(** ** Query strings *)

Lemma option_string_eqb_eq (a b : option string) :
  option_string_eqb a b = true -> a = b.
Proof.
  destruct a, b; simpl; intros H; try discriminate; [|reflexivity].
  apply String.eqb_eq in H. subst. reflexivity.
Qed.

Lemma agree_on_In (keys : list string) (q q' : QueryDict) (k : string) :
  agree_on keys q q' = true -> In k keys -> qget k q = qget k q'.
Proof.
  unfold agree_on. rewrite forallb_forall. intros H Hk.
  apply option_string_eqb_eq. apply H. exact Hk.
Qed.

(** ** The list operation *)

(** With a product in the table the first turn of the loop decides: the
    customer lookup fails, or the assignment of line 258 does. *)
Lemma annotate_liked_cons (request : Request) (p : Product.t)
  (rows : list Product.t) (db : Database) :
  Products.annotate_liked request (p :: rows) db
  = (match auth request with
     | None => Raise (AttributeError "NoneType" "user")
     | Some u =>
         match customer_of u db with
         | Ok _ => Raise (not_assignable "liked")
         | Raise e => Raise e
         end
     end, db).
Proof.
  unfold Products.annotate_liked. cbn [for_each].
  unfold Customer_objects_get, request_auth_user.
  destruct (auth request) as [u|]; [|reflexivity].
  unfold bind, ret. destruct (customer_of u db); reflexivity.
Qed.

Lemma list_on_products (request : Request) (db : Database) :
  products db <> [] ->
  Products.list request db
  = (match auth request with
     | None => Raise (AttributeError "NoneType" "user")
     | Some u =>
         match customer_of u db with
         | Ok _ => Raise (not_assignable "liked")
         | Raise e => Raise e
         end
     end, db).
Proof.
  intros Hne. unfold Products.list. unfold bind at 1. unfold read.
  change (rows_of db QS.all) with (products db).
  destruct (products db) as [|p rows]; [contradiction|].
  unfold bind at 1. rewrite annotate_liked_cons.
  destruct (auth request) as [u|]; [|reflexivity].
  destruct (customer_of u db); reflexivity.
Qed.

(** A query on a table without rows gives no row. *)
Lemma rows_of_no_product (db : Database) (qs : QuerySet) :
  products db = [] -> rows_of db qs = [].
Proof.
  intros E. unfold rows_of. rewrite E.
  assert (H : fold_left (fun rows l => apply_lookup db l rows) (lookups qs) []
              = []).
  { induction (lookups qs) as [|l ls IH]; simpl; [reflexivity|].
    destruct l; simpl; exact IH. }
  rewrite H. destruct (ordering qs), (stop qs) as [n|]; simpl;
    try (destruct n); reflexivity.
Qed.

Lemma serialize_no_product (it : Iterable) (db : Database) :
  products db = [] -> serialize it db = (Ok [], db).
Proof.
  intros E. unfold serialize. rewrite (rows_of_no_product _ _ E).
  reflexivity.
Qed.

(** Before the first product the loop has no turn, and the lazy filters
    get no row: the answer is the empty array, unless one of the steps
    that build the query raises. *)
Lemma list_on_no_product (request : Request) (db : Database) :
  products db = [] ->
  Products.list request db
  = (and_then (Products.list_query request QS.all)
       (fun _ => Ok (new Response (ProductList []) None)), db).
Proof.
  intros E. unfold Products.list. unfold bind at 1. unfold read.
  change (rows_of db QS.all) with (products db). rewrite E.
  cbn [Products.annotate_liked for_each]. rewrite bind_ret, bind_lift.
  destruct (Products.list_query request QS.all) as [qs|e]; [|reflexivity].
  cbn [and_then]. unfold bind at 1. rewrite (serialize_no_product _ _ E).
  reflexivity.
Qed.

Lemma list_db (request : Request) (db : Database) :
  snd (Products.list request db) = db.
Proof.
  destruct (products db) as [|p rows] eqn:E.
  - rewrite (list_on_no_product _ _ E). reflexivity.
  - rewrite list_on_products; [reflexivity|]. rewrite E. discriminate.
Qed.

(** The only response of [list]. *)
Lemma list_Ok_inv (request : Request) (db : Database)
  (response : HttpResponse) :
  fst (Products.list request db) = Ok response ->
  products db = [] /\ response = new Response (ProductList []) None.
Proof.
  intros H. destruct (products db) as [|p rows] eqn:E.
  - split; [reflexivity|]. rewrite (list_on_no_product _ _ E) in H.
    cbn [fst] in H.
    destruct (Products.list_query request QS.all); cbn [and_then] in H;
      [|discriminate].
    injection H as H. symmetry. exact H.
  - rewrite list_on_products in H by (rewrite E; discriminate).
    cbn [fst] in H. destruct (auth request) as [u|]; [|discriminate].
    destruct (customer_of u db); discriminate.
Qed.

(** The query depends on five of the parameters. *)
Lemma list_query_agree (request request' : Request) (qs : QuerySet) :
  agree_on ["location"; "order_by"; "direction"; "category"; "quantity"]
    (query_params request) (query_params request') = true ->
  Products.list_query request qs = Products.list_query request' qs.
Proof.
  intros H. unfold Products.list_query.
  rewrite (agree_on_In _ _ _ "location" H) by (simpl; tauto).
  rewrite (agree_on_In _ _ _ "order_by" H) by (simpl; tauto).
  rewrite (agree_on_In _ _ _ "direction" H) by (simpl; tauto).
  rewrite (agree_on_In _ _ _ "category" H) by (simpl; tauto).
  rewrite (agree_on_In _ _ _ "quantity" H) by (simpl; tauto).
  reflexivity.
Qed.

Lemma agree_on_sub (keys keys' : list string) (q q' : QueryDict) :
  agree_on keys q q' = true ->
  (forall k, In k keys' -> In k keys) ->
  agree_on keys' q q' = true.
Proof.
  unfold agree_on. rewrite !forallb_forall. intros H Hs k Hk.
  apply H, Hs, Hk.
Qed.

(** What [list] answers is decided by the caller and these five. *)
Lemma list_agree (request request' : Request) (db : Database) :
  auth request' = auth request ->
  agree_on ["location"; "order_by"; "direction"; "category"; "quantity"]
    (query_params request) (query_params request') = true ->
  Products.list request db = Products.list request' db.
Proof.
  intros Ha Hq. destruct (products db) as [|p rows] eqn:E.
  - rewrite !(list_on_no_product _ _ E).
    rewrite (list_query_agree request request' _ Hq). reflexivity.
  - rewrite !list_on_products by (rewrite E; discriminate).
    rewrite Ha. reflexivity.
Qed.

(** C5 at the inputs where it fails. The claim has the filters applied to
    the full product set, in a fixed order, for every combination of the
    parameters; but as soon as the table holds a product, a request of a
    registered customer ends in the loop that comes before the filters:
    [product.liked = None] (line 258) assigns to the name under which
    [UserLike.product] reaches Product, and raises TypeError. Whatever the
    parameters, no filter is applied and no response is built. *)
Theorem list_raises_before_any_filter (request : Request) (db : Database)
  (u : Z) (customer : Customer.t) :
  products db <> [] ->
  auth request = Some u ->
  customer_of u db = Ok customer ->
  Products.list request db = (Raise (not_assignable "liked"), db).
Proof.
  intros Hne Ha Hc. rewrite (list_on_products _ _ Hne), Ha, Hc.
  reflexivity.
Qed.

Lemma list_raises_before_any_filter_witness :
  Products.list
    (Sample.request_of "GET" 10
       [("min_price", "6"); ("location", "Nash"); ("order_by", "price")] [])
    Sample.shop
  = (Raise (not_assignable "liked"), Sample.shop).
Proof.
  apply (list_raises_before_any_filter _ Sample.shop 10 Sample.anna);
    [discriminate | reflexivity | reflexivity].
Defined.

(** C7 at the inputs where it fails. The claim has a request with
    quantity=N answered with the N most recently created products. The
    code never gets there: on a table with a product the request of a
    registered customer ends in the TypeError of line 258, whatever the
    quantity is (a number or not), and the only response a request with a
    quantity ever gets is the empty array, on a table without products. *)
Theorem list_with_quantity_lists_nothing (request : Request)
  (db : Database) (s : string) :
  qget "quantity" (query_params request) = Some s ->
  (forall u customer,
     products db <> [] ->
     auth request = Some u ->
     customer_of u db = Ok customer ->
     Products.list request db = (Raise (not_assignable "liked"), db))
  /\ (forall response,
        fst (Products.list request db) = Ok response ->
        products db = [] /\ response = new Response (ProductList []) None).
Proof.
  intros _. split.
  - intros u customer Hne Ha Hc.
    rewrite (list_on_products _ _ Hne), Ha, Hc. reflexivity.
  - intros response. apply list_Ok_inv.
Qed.

Lemma list_with_quantity_lists_nothing_witness :
  Products.list
    (Sample.request_of "GET" 10 [("order_by", "price"); ("quantity", "2")] [])
    Sample.shop
  = (Raise (not_assignable "liked"), Sample.shop).
Proof.
  apply (proj1 (list_with_quantity_lists_nothing
                  (Sample.request_of "GET" 10
                     [("order_by", "price"); ("quantity", "2")] [])
                  Sample.shop "2" eq_refl)
           10 Sample.anna);
    [discriminate | reflexivity | reflexivity].
Defined.

(** C8 at the inputs where it fails. The claim has the products of the
    response filtered by price. The code never compares a price with
    min_price: two requests of one caller that differ in min_price alone
    (one may give none, the other a text that is no number) have the same
    outcome on every database, because [price_filter] is called for the
    products that reach the serializer, and none does: on a table with a
    product the request of a registered customer ends in the TypeError of
    line 258. *)
Theorem list_never_compares_min_price (request request' : Request)
  (db : Database) :
  auth request' = auth request ->
  agree_on ["location"; "order_by"; "direction"; "category"; "quantity";
            "number_sold"] (query_params request) (query_params request')
    = true ->
  Products.list request db = Products.list request' db
  /\ (forall u customer,
        products db <> [] ->
        auth request = Some u ->
        customer_of u db = Ok customer ->
        Products.list request db = (Raise (not_assignable "liked"), db)).
Proof.
  intros Ha Hq. split.
  - apply (list_agree _ _ _ Ha).
    apply (agree_on_sub _ _ _ _ Hq). simpl. tauto.
  - intros u customer Hne Hu Hc.
    rewrite (list_on_products _ _ Hne), Hu, Hc. reflexivity.
Qed.

Lemma list_never_compares_min_price_witness :
  Products.list (Sample.request_of "GET" 10 [("min_price", "10")] [])
    Sample.shop
  = Products.list (Sample.request_of "GET" 10 [] []) Sample.shop
  /\ Products.list (Sample.request_of "GET" 10 [("min_price", "10")] [])
       Sample.shop
     = (Raise (not_assignable "liked"), Sample.shop).
Proof.
  split.
  - exact (proj1 (list_never_compares_min_price
                    (Sample.request_of "GET" 10 [("min_price", "10")] [])
                    (Sample.request_of "GET" 10 [] [])
                    Sample.shop eq_refl eq_refl)).
  - apply (proj2 (list_never_compares_min_price
                    (Sample.request_of "GET" 10 [("min_price", "10")] [])
                    (Sample.request_of "GET" 10 [] [])
                    Sample.shop eq_refl eq_refl)
             10 Sample.anna);
      [discriminate | reflexivity | reflexivity].
Defined.



(** ** Uniqueness of likes *)

Lemma cell_eqb_refl (a : option Z) : cell_eqb a a = true.
Proof. destruct a; simpl; [apply Z.eqb_refl|reflexivity]. Qed.

Lemma distinctb_app_one {A : Type} (eqb : A -> A -> bool) (l : list A)
  (x : A) :
  distinctb eqb l = true ->
  existsb (fun y => eqb y x) l = false ->
  distinctb eqb (l ++ [x]) = true.
Proof.
  induction l as [|a r IH]; simpl; [reflexivity|].
  intros Hd He. apply andb_true_iff in Hd. destruct Hd as [Ha Hr].
  apply orb_false_iff in He. destruct He as [Hax Hrx].
  rewrite existsb_app. simpl. rewrite Hax. simpl.
  apply negb_true_iff in Ha. rewrite Ha. simpl. apply IH; assumption.
Qed.

Lemma existsb_map_filter {A B : Type} (g : B -> bool) (k : A -> B)
  (f : A -> bool) (l : list A) :
  existsb g (map k (filter f l)) = true -> existsb g (map k l) = true.
Proof.
  induction l as [|a r IH]; simpl; [auto|].
  destruct (f a); simpl.
  - intros H. apply orb_true_iff in H. apply orb_true_iff.
    destruct H as [H|H]; [left; exact H|right; apply IH; exact H].
  - intros H. apply orb_true_iff. right. apply IH. exact H.
Qed.

Lemma distinctb_map_filter {A B : Type} (eqb : B -> B -> bool)
  (k : A -> B) (f : A -> bool) (l : list A) :
  distinctb eqb (map k l) = true ->
  distinctb eqb (map k (filter f l)) = true.
Proof.
  induction l as [|a r IH]; simpl; [auto|].
  intros H. apply andb_true_iff in H. destruct H as [Ha Hr].
  destruct (f a); simpl; [|apply IH; exact Hr].
  apply andb_true_iff. split; [|apply IH; exact Hr].
  apply negb_true_iff. apply negb_true_iff in Ha.
  destruct (existsb (eqb (k a)) (map k (filter f r))) eqn:E;
    [|reflexivity].
  apply existsb_map_filter in E. congruence.
Qed.

Lemma no_like_no_pair (p c : Z) (rows : list UserLike.t) :
  filter (fun l => UserLike.product l =? p) rows = [] ->
  existsb (fun y => key_eqb y [Some p; Some c]) (map pair_key rows) = false.
Proof.
  induction rows as [|l r IH]; simpl; [reflexivity|].
  destruct (UserLike.product l =? p) eqn:E; [discriminate|].
  intros H. rewrite (IH H). reflexivity.
Qed.

Lemma unique_pairs_insert (p c : Z) (db : Database) :
  unique_on ["product"; "customer"] (userlikes db) = true ->
  likes_of p db = [] ->
  unique_on ["product"; "customer"] (userlikes (insert_userlike p c db))
  = true.
Proof.
  unfold unique_on, likes_of. intros Hu Hn. simpl userlikes.
  rewrite map_app.
  apply distinctb_app_one; [exact Hu|].
  apply (no_like_no_pair p c _ Hn).
Qed.

Lemma unique_pairs_delete (l : UserLike.t) (db : Database) :
  unique_on ["product"; "customer"] (userlikes db) = true ->
  unique_on ["product"; "customer"] (userlikes (delete_userlike l db))
  = true.
Proof.
  unfold unique_on. intros Hu. simpl userlikes.
  apply distinctb_map_filter. exact Hu.
Qed.

(** Every way [like] can leave the database. *)
Lemma like_effect (request : Request) (pk : Z) (db : Database) :
  snd (Products.like request pk db) = db
  \/ (exists p c, likes_of p db = []
                  /\ snd (Products.like request pk db)
                     = insert_userlike p c db)
  \/ (exists l, snd (Products.like request pk db) = delete_userlike l db).
Proof.
  unfold Products.like.
  destruct (String.eqb (method request) "POST").
  - run_handler.
    destruct (product_with pk db) as [product|e]; [|left; reflexivity].
    destruct (auth request) as [u|]; [|left; reflexivity].
    destruct (customer_of u db) as [customer|e]; [|left; reflexivity].
    unfold objects_get.
    destruct (filter _ (userlikes db)) as [|l [|l' ls]] eqn:E; simpl.
    + right. left. exists (Product.id product), (Customer.id customer).
      split; [exact E|reflexivity].
    + left. reflexivity.
    + left. reflexivity.
  - destruct (String.eqb (method request) "DELETE"); [|left; reflexivity].
    run_handler.
    destruct (product_with pk db) as [product|e]; simpl.
    + destruct (auth request) as [u|]; [|left; reflexivity].
      destruct (customer_of u db) as [customer|e]; [|left; reflexivity].
      unfold objects_get.
      destruct (filter _ (userlikes db)) as [|l [|l' ls]]; simpl.
      * left. reflexivity.
      * right. right. exists l. reflexivity.
      * left. reflexivity.
    + destruct (is_DoesNotExist ProductM e); left; reflexivity.
Qed.

(** C10. The UserLike class declares no uniqueness on (product, customer):
    it has no unique field and no unique_together set, a table holding two
    likes of the same product by the same customer satisfies all it
    declares, and saving the same pair twice is accepted and leaves such a
    table. What keeps the pairs distinct is the like handler: whatever the
    request, a table without a repeated pair is left without one, because a
    like is saved only after the lookup found none for the product. *)
Theorem userlike_pairs_kept_unique_by_handler_only :
  (models.unique_together models.UserLike = []
   /\ forallb (fun f => negb (models.unique f))
        (models.fields models.UserLike) = true)
  /\ (forall p c,
        satisfies models.UserLike
          [ {| UserLike.id := 1; UserLike.product := p;
               UserLike.customer := c |};
            {| UserLike.id := 2; UserLike.product := p;
               UserLike.customer := c |} ] = true)
  /\ (forall p c db,
        unique_on ["product"; "customer"]
          (userlikes (insert_userlike p c (insert_userlike p c db))) = false)
  /\ (forall request pk db,
        unique_on ["product"; "customer"] (userlikes db) = true ->
        unique_on ["product"; "customer"]
          (userlikes (snd (Products.like request pk db))) = true).
Proof.
  split; [split; reflexivity|]. split; [|split].
  - intros p c. reflexivity.
  - intros p c db. unfold unique_on. simpl userlikes.
    rewrite <- app_assoc. rewrite map_app. simpl.
    induction (map _ (userlikes db)) as [|k r IH]; simpl.
    + rewrite !Z.eqb_refl. reflexivity.
    + rewrite IH. apply andb_false_r.
  - intros request pk db Hu.
    destruct (like_effect request pk db) as [E|[[p [c [Hn E]]]|[l E]]];
      rewrite E.
    + exact Hu.
    + apply unique_pairs_insert; assumption.
    + apply unique_pairs_delete. exact Hu.
Qed.

Lemma userlike_pairs_kept_unique_by_handler_only_witness :
  unique_on ["product"; "customer"]
    (userlikes
       (snd (Products.like (Sample.request_of "POST" 20 [] []) 2
               (Sample.with_likes [Sample.like_of 1 1 1] Sample.shop))))
  = true.
Proof.
  apply (proj2 (proj2 (proj2 userlike_pairs_kept_unique_by_handler_only))).
  reflexivity.
Defined.

(** ** Further properties of the handlers *)

Lemma filter_none {A : Type} (f : A -> bool) (l : list A) :
  existsb f l = false -> filter f l = [].
Proof.
  induction l as [|a r IH]; simpl; [reflexivity|].
  intros H. apply orb_false_iff in H. destruct H as [Ha Hr].
  rewrite Ha. apply IH. exact Hr.
Qed.

Lemma existsb_key_map {A : Type} (k : A -> Z) (v : Z) (l : list A) :
  existsb (Z.eqb v) (map k l) = existsb (fun x => k x =? v) l.
Proof.
  induction l as [|a r IH]; simpl; [reflexivity|].
  rewrite IH, (Z.eqb_sym v (k a)). reflexivity.
Qed.

(** With distinct keys, at most one row has a given key. *)
Lemma distinct_keys_filter {A : Type} (k : A -> Z) (v : Z) (l : list A) :
  distinctb Z.eqb (map k l) = true ->
  filter (fun x => k x =? v) l = []
  \/ exists x, filter (fun x => k x =? v) l = [x].
Proof.
  induction l as [|a r IH]; simpl; [left; reflexivity|].
  intros H. apply andb_true_iff in H. destruct H as [Ha Hr].
  destruct (k a =? v) eqn:E.
  - right. exists a. f_equal. apply filter_none.
    apply Z.eqb_eq in E. subst v.
    rewrite <- existsb_key_map. apply negb_true_iff. exact Ha.
  - apply IH. exact Hr.
Qed.

Lemma objects_get_In {A : Type} (m : Model) (f : A -> bool) (rows : list A)
  (x : A) :
  objects_get m f rows = Ok x -> In x rows /\ f x = true.
Proof.
  intros H. apply objects_get_Ok in H.
  apply filter_In. rewrite H. left. reflexivity.
Qed.

(** X1. For an integer key that a 64-bit key column can hold, on a table
    whose keys are distinct, [retrieve] answers 200 with the product that
    has the key, or 404 when no product has it, and leaves the database as
    it is. (How a key beyond that range, or a key that is no integer, is
    answered is up to the database driver and is not modelled.) *)
Theorem retrieve_answers_200_or_404 (request : Request) (pk : Z)
  (db : Database) :
  - 2 ^ 63 <= pk < 2 ^ 63 ->
  product_keys_unique db = true ->
  (exists product,
     In product (products db)
     /\ Product.id product = pk
     /\ Products.retrieve request pk db
        = (Ok (new Response (ProductData product) None), db)
     /\ status_code (new Response (ProductData product) None) = 200)
  \/ (existsb (fun p => Product.id p =? pk) (products db) = false
      /\ exists response,
           Products.retrieve request pk db = (Ok response, db)
           /\ status_code response = 404).
Proof.
  intros _ Hu. unfold product_keys_unique in Hu.
  destruct (distinct_keys_filter Product.id pk (products db) Hu) as [E|[p E]].
  - right.
    assert (Hn : existsb (fun p => Product.id p =? pk) (products db) = false).
    { destruct (existsb _ (products db)) eqn:Ex; [|reflexivity].
      apply existsb_exists in Ex. destruct Ex as [x [Hx Hk]].
      assert (I : In x (filter (fun p => Product.id p =? pk) (products db))).
      { apply filter_In. split; assumption. }
      rewrite E in I. destruct I. }
    split; [exact Hn|].
    exists (new HttpResponseServerError
              (ExceptionText (DoesNotExist ProductM)) (Some 404)).
    split; [|reflexivity].
    unfold Products.retrieve. run_handler. unfold product_with.
    rewrite (objects_get_none ProductM _ _ Hn). reflexivity.
  - left. exists p.
    assert (I : In p (filter (fun p => Product.id p =? pk) (products db))).
    { rewrite E. left. reflexivity. }
    apply filter_In in I. destruct I as [Hin Hk]. apply Z.eqb_eq in Hk.
    split; [exact Hin|]. split; [exact Hk|]. split; [|reflexivity].
    unfold Products.retrieve. run_handler. unfold product_with, objects_get.
    rewrite E. reflexivity.
Qed.

Lemma retrieve_answers_200_or_404_witness :
  (exists product,
     In product (products Sample.shop)
     /\ Product.id product = 2
     /\ Products.retrieve (Sample.request_of "GET" 10 [] []) 2 Sample.shop
        = (Ok (new Response (ProductData product) None), Sample.shop)
     /\ status_code (new Response (ProductData product) None) = 200)
  \/ (existsb (fun p => Product.id p =? 2) (products Sample.shop) = false
      /\ exists response,
           Products.retrieve (Sample.request_of "GET" 10 [] []) 2 Sample.shop
             = (Ok response, Sample.shop)
           /\ status_code response = 404).
Proof.
  apply (retrieve_answers_200_or_404 (Sample.request_of "GET" 10 [] []) 2
           Sample.shop).
  - lia.
  - reflexivity.
Defined.

Lemma liked_db (request : Request) (db : Database) :
  snd (Products.liked request db) = db.
Proof.
  unfold Products.liked. destruct (String.eqb (method request) "GET");
    [|reflexivity].
  unfold bind, lift, serialize, ret.
  destruct (Product_objects_filter "liked" true) as [qs|e]; [|reflexivity].
  simpl. destruct (pull _ _); reflexivity.
Qed.

Lemma retrieve_db (request : Request) (pk : Z) (db : Database) :
  snd (Products.retrieve request pk db) = db.
Proof.
  unfold Products.retrieve. run_handler.
  destruct (product_with pk db) as [p|e]; [reflexivity|].
  destruct (is_DoesNotExist ProductM e); reflexivity.
Qed.

(** X2. The handlers of the GET requests write nothing: whatever the
    request and whether they answer or raise, [retrieve], [list] and
    [liked] leave every table as it was. *)
Theorem get_handlers_write_nothing (request : Request) (pk : Z)
  (db : Database) :
  snd (Products.retrieve request pk db) = db
  /\ snd (Products.list request db) = db
  /\ snd (Products.liked request db) = db.
Proof.
  split; [apply retrieve_db|]. split; [|apply liked_db].
  apply list_db.
Qed.

(** Every way [rate] can end. *)
Lemma rate_outcome (request : Request) (pk : Z) (db : Database) :
  (exists customer rating,
     Products.rate request pk db
       = (Ok (Some (new Response EmptyObject (Some 201))),
          insert_productrating pk customer rating db)
     /\ ratings_of pk db = []
     /\ qget "rating" (data request) = Some rating
     /\ method request = "POST")
  \/ (fst (Products.rate request pk db)
        <> Ok (Some (new Response EmptyObject (Some 201)))
      /\ snd (Products.rate request pk db) = db).
Proof.
  unfold Products.rate.
  destruct (String.eqb (method request) "POST") eqn:Em;
    [|right; split; [discriminate|reflexivity]].
  apply String.eqb_eq in Em.
  run_handler.
  destruct (product_with pk db) as [product|e] eqn:Ep;
    [|right; split; [discriminate|reflexivity]].
  pose proof (product_with_id _ _ _ Ep) as Hid. rewrite Hid.
  destruct (auth request) as [u|];
    [|right; split; [discriminate|reflexivity]].
  destruct (customer_of u db) as [customer|e];
    [|right; split; [discriminate|reflexivity]].
  unfold objects_get. fold (ratings_of pk db).
  destruct (ratings_of pk db) as [|r [|r' rs]] eqn:Er; simpl.
  - destruct (qget "rating" (data request)) as [rating|] eqn:Eq.
    + left. exists (Customer.id customer), rating. simpl. auto.
    + right. split; [discriminate|reflexivity].
  - right. split; [discriminate|reflexivity].
  - right. split; [discriminate|reflexivity].
Qed.

(** X3. [rate] stores a rating exactly when it answers 201: then the
    ratings table grows by one row for the product, which had no rating,
    carrying the rating of the request body; in every other case (another
    response, no response, an exception) the database is left as it was.
    No rating is ever changed or removed, and no other table is touched. *)
Theorem rate_stores_only_with_201 (request : Request) (pk : Z)
  (db : Database) :
  (exists customer rating,
     fst (Products.rate request pk db)
       = Ok (Some (new Response EmptyObject (Some 201)))
     /\ productratings (snd (Products.rate request pk db))
        = (productratings db ++ [new_rating pk customer rating db])%list
     /\ qget "rating" (data request) = Some rating
     /\ ratings_of pk db = []
     /\ products (snd (Products.rate request pk db)) = products db
     /\ customers (snd (Products.rate request pk db)) = customers db
     /\ userlikes (snd (Products.rate request pk db)) = userlikes db)
  \/ (fst (Products.rate request pk db)
        <> Ok (Some (new Response EmptyObject (Some 201)))
      /\ snd (Products.rate request pk db) = db).
Proof.
  destruct (rate_outcome request pk db)
    as [[customer [rating [E [Hn [Hq Hm]]]]]|H]; [left|right; exact H].
  exists customer, rating. rewrite E. simpl. auto 10.
Qed.

(** Every way [like] can end. *)
Lemma like_outcome (request : Request) (pk : Z) (db : Database) :
  (exists customer,
     Products.like request pk db
       = (Ok (Some (new Response EmptyObject (Some 201))),
          insert_userlike pk customer db)
     /\ likes_of pk db = []
     /\ (exists product, product_with pk db = Ok product)
     /\ method request = "POST")
  \/ (exists l,
        Products.like request pk db
          = (Ok (Some (new Response NoContent (Some 204))),
             delete_userlike l db)
        /\ In l (userlikes db)
        /\ UserLike.product l = pk
        /\ method request = "DELETE")
  \/ (fst (Products.like request pk db)
        <> Ok (Some (new Response EmptyObject (Some 201)))
      /\ fst (Products.like request pk db)
        <> Ok (Some (new Response NoContent (Some 204)))
      /\ snd (Products.like request pk db) = db).
Proof.
  unfold Products.like.
  destruct (String.eqb (method request) "POST") eqn:Em.
  - apply String.eqb_eq in Em. run_handler.
    destruct (product_with pk db) as [product|e] eqn:Ep;
      [|right; right; repeat split; discriminate].
    pose proof (product_with_id _ _ _ Ep) as Hid. rewrite Hid.
    destruct (auth request) as [u|];
      [|right; right; repeat split; discriminate].
    destruct (customer_of u db) as [customer|e];
      [|right; right; repeat split; discriminate].
    unfold objects_get. fold (likes_of pk db).
    destruct (likes_of pk db) as [|l [|l' ls]] eqn:El; simpl.
    + left. exists (Customer.id customer).
      repeat split; try assumption. exists product. reflexivity.
    + right; right; repeat split; discriminate.
    + right; right; repeat split; discriminate.
  - destruct (String.eqb (method request) "DELETE") eqn:Ed;
      [|right; right; repeat split; discriminate].
    apply String.eqb_eq in Ed. run_handler.
    destruct (product_with pk db) as [product|e] eqn:Ep; simpl.
    + pose proof (product_with_id _ _ _ Ep) as Hid. rewrite Hid.
      destruct (auth request) as [u|];
        [|right; right; repeat split; discriminate].
      destruct (customer_of u db) as [customer|e];
        [|right; right; repeat split; discriminate].
      unfold objects_get.
      destruct (filter _ (userlikes db)) as [|l [|l' ls]] eqn:El; simpl.
      * right; right; repeat split; discriminate.
      * right. left. exists l.
        assert (I : In l (filter
                            (fun l => (UserLike.product l =? pk)
                                      && (UserLike.customer l
                                          =? Customer.id customer))
                            (userlikes db))).
        { rewrite El. left. reflexivity. }
        apply filter_In in I. destruct I as [Hin Hb].
        apply andb_true_iff in Hb. destruct Hb as [Hp _].
        apply Z.eqb_eq in Hp. auto.
      * right; right; repeat split; discriminate.
    + destruct (is_DoesNotExist ProductM e);
        right; right; repeat split; discriminate.
Qed.

(** X4. [like] writes only the likes table, and only with its two success
    answers: with 201 the table grows by one like for the product, which
    had none; with 204 the rows carrying the key of one like of the
    product are removed; in every other case (422, 400, no response, an
    exception) the database is left as it was. Products, customers and
    ratings are never touched. *)
Theorem like_writes_only_with_201_or_204 (request : Request) (pk : Z)
  (db : Database) :
  products (snd (Products.like request pk db)) = products db
  /\ customers (snd (Products.like request pk db)) = customers db
  /\ productratings (snd (Products.like request pk db)) = productratings db
  /\ ((exists customer,
         fst (Products.like request pk db)
           = Ok (Some (new Response EmptyObject (Some 201)))
         /\ userlikes (snd (Products.like request pk db))
            = (userlikes db ++ [new_like pk customer db])%list
         /\ likes_of pk db = [])
      \/ (exists l,
            fst (Products.like request pk db)
              = Ok (Some (new Response NoContent (Some 204)))
            /\ In l (userlikes db)
            /\ UserLike.product l = pk
            /\ userlikes (snd (Products.like request pk db))
               = filter (fun l' => negb (UserLike.id l' =? UserLike.id l))
                        (userlikes db))
      \/ (fst (Products.like request pk db)
            <> Ok (Some (new Response EmptyObject (Some 201)))
          /\ fst (Products.like request pk db)
            <> Ok (Some (new Response NoContent (Some 204)))
          /\ snd (Products.like request pk db) = db)).
Proof.
  destruct (like_outcome request pk db)
    as [[customer [E [Hn [_ Hm]]]]|[[l [E [Hin [Hp Hm]]]]|[H1 [H2 H3]]]].
  - rewrite E. simpl. repeat split. left. exists customer. auto.
  - rewrite E. simpl. repeat split. right. left. exists l. auto.
  - rewrite H3. repeat split. right. right. auto.
Qed.

(** X5. One key that no product has, four answers: [retrieve] returns
    404 and a DELETE to [like] returns 400, but a POST to [like] and a
    POST to [rate] raise Product.DoesNotExist, which nothing catches, so
    they build no response. Nothing is written in any of the four. *)
Theorem missing_product_answers (request : Request) (pk : Z)
  (db : Database) :
  existsb (fun p => Product.id p =? pk) (products db) = false ->
  (exists response,
     Products.retrieve request pk db = (Ok response, db)
     /\ status_code response = 404)
  /\ (method request = "DELETE" ->
      Products.like request pk db
      = (Ok (Some (new Response (Message "Product does not exist")
                       (Some 400))), db))
  /\ (method request = "POST" ->
      Products.like request pk db = (Raise (DoesNotExist ProductM), db)
      /\ Products.rate request pk db = (Raise (DoesNotExist ProductM), db)).
Proof.
  intros Hn.
  assert (Hp : product_with pk db = Raise (DoesNotExist ProductM)).
  { unfold product_with. apply objects_get_none. exact Hn. }
  split; [|split].
  - exists (new HttpResponseServerError
              (ExceptionText (DoesNotExist ProductM)) (Some 404)).
    split; [|reflexivity].
    unfold Products.retrieve. run_handler. rewrite Hp. reflexivity.
  - intros Hm. apply like_delete_no_product; assumption.
  - intros Hm. unfold Products.like, Products.rate.
    rewrite Hm, String.eqb_refl. run_handler. rewrite Hp.
    split; reflexivity.
Qed.

Lemma missing_product_answers_witness :
  Products.like (Sample.request_of "POST" 10 [] []) 9 Sample.shop
  = (Raise (DoesNotExist ProductM), Sample.shop)
  /\ Products.rate (Sample.request_of "POST" 10 [] []) 9 Sample.shop
     = (Raise (DoesNotExist ProductM), Sample.shop).
Proof.
  apply (proj2 (proj2 (missing_product_answers
                         (Sample.request_of "POST" 10 [] []) 9 Sample.shop
                         eq_refl))).
  reflexivity.
Defined.

(** X6. [rate] looks for a rating before it reads the body: a POST by a
    registered customer on an existing product without a [rating] in the
    body raises KeyError and stores nothing when the product has no
    rating, and is answered 422, like any other, when the product has
    one. *)
Theorem rate_without_rating_value (request : Request) (pk : Z)
  (db : Database) (product : Product.t) (customer : Customer.t) (u : Z) :
  method request = "POST" ->
  product_with pk db = Ok product ->
  auth request = Some u ->
  customer_of u db = Ok customer ->
  qget "rating" (data request) = None ->
  (ratings_of pk db = [] ->
   Products.rate request pk db = (Raise (KeyError "rating"), db))
  /\ (forall r, ratings_of pk db = [r] ->
      Products.rate request pk db
      = (Ok (Some (new Response
                       (Message "You have already rated this product")
                       (Some 422))), db)).
Proof.
  intros Hm Hp Ha Hc Hq.
  pose proof (rate_post_cases request pk db product customer u Hm Hp Ha Hc)
    as Hcases.
  split.
  - intros Hn. rewrite Hn, Hq in Hcases. exact Hcases.
  - intros r Hr. rewrite Hr in Hcases. exact Hcases.
Qed.

Lemma rate_without_rating_value_witness :
  Products.rate (Sample.request_of "POST" 10 [] []) 1 Sample.shop
  = (Raise (KeyError "rating"), Sample.shop).
Proof.
  apply (proj1 (rate_without_rating_value
                  (Sample.request_of "POST" 10 [] []) 1 Sample.shop
                  Sample.kite Sample.anna 10
                  eq_refl eq_refl eq_refl eq_refl eq_refl)).
  reflexivity.
Defined.

(** ** Like and unlike *)

Lemma filter_all {A : Type} (f : A -> bool) (l : list A) :
  forallb f l = true -> filter f l = l.
Proof.
  induction l as [|a r IH]; simpl; [reflexivity|].
  intros H. apply andb_true_iff in H. destruct H as [Ha Hr].
  rewrite Ha, (IH Hr). reflexivity.
Qed.

Lemma filter_nil_existsb {A : Type} (f : A -> bool) (l : list A) :
  filter f l = [] -> existsb f l = false.
Proof.
  induction l as [|a r IH]; simpl; [reflexivity|].
  destruct (f a); [discriminate|]. exact IH.
Qed.

Lemma no_like_no_pair_like (pk c : Z) (db : Database) :
  likes_of pk db = [] -> likes_of_pair pk c db = [].
Proof.
  unfold likes_of, likes_of_pair. intros H.
  apply filter_nil_existsb in H. apply filter_none.
  induction (userlikes db) as [|l r IH]; simpl in *; [reflexivity|].
  apply orb_false_iff in H. destruct H as [Hl Hr].
  rewrite Hl. simpl. apply IH. exact Hr.
Qed.

(** X7. Like, then unlike. On a product without likes, in a table whose
    keys were all issued by its sequence, a POST of a registered customer
    is answered 201 and a DELETE of the same customer right after is
    answered 204, and the likes table is then exactly what it was before
    the two requests; no other table changed. *)
Theorem like_then_unlike_restores_likes (post delete : Request) (pk : Z)
  (db : Database) (product : Product.t) (customer : Customer.t) (u : Z) :
  method post = "POST" ->
  method delete = "DELETE" ->
  auth post = Some u ->
  auth delete = Some u ->
  product_with pk db = Ok product ->
  customer_of u db = Ok customer ->
  likes_of pk db = [] ->
  like_keys_issued db = true ->
  exists db1 db2,
    Products.like post pk db
      = (Ok (Some (new Response EmptyObject (Some 201))), db1)
    /\ Products.like delete pk db1
       = (Ok (Some (new Response NoContent (Some 204))), db2)
    /\ userlikes db2 = userlikes db
    /\ products db2 = products db
    /\ customers db2 = customers db
    /\ productratings db2 = productratings db.
Proof.
  intros Hmp Hmd Hap Had Hp Hc Hn Hk.
  exists (insert_userlike pk (Customer.id customer) db).
  exists (delete_userlike (new_like pk (Customer.id customer) db)
            (insert_userlike pk (Customer.id customer) db)).
  split; [|split].
  - rewrite (like_post_cases post pk db product customer u Hmp Hp Hap Hc).
    rewrite Hn. reflexivity.
  - rewrite (like_delete_cases delete pk
               (insert_userlike pk (Customer.id customer) db)
               product customer u Hmd Hp Had Hc).
    unfold likes_of_pair. simpl userlikes. rewrite filter_app.
    fold (likes_of_pair pk (Customer.id customer) db).
    rewrite (no_like_no_pair_like pk (Customer.id customer) db Hn).
    simpl. rewrite !Z.eqb_refl. reflexivity.
  - simpl. repeat split.
    rewrite filter_app. simpl. rewrite Z.eqb_refl. simpl.
    rewrite app_nil_r. apply filter_all.
    unfold like_keys_issued in Hk. rewrite forallb_forall in *.
    intros l Hl. specialize (Hk l Hl). apply Z.leb_le in Hk.
    apply negb_true_iff. apply Z.eqb_neq. lia.
Qed.

Lemma like_then_unlike_restores_likes_witness :
  exists db1 db2,
    Products.like (Sample.request_of "POST" 20 [] []) 3 Sample.shop
      = (Ok (Some (new Response EmptyObject (Some 201))), db1)
    /\ Products.like (Sample.request_of "DELETE" 20 [] []) 3 db1
       = (Ok (Some (new Response NoContent (Some 204))), db2)
    /\ userlikes db2 = userlikes Sample.shop
    /\ products db2 = products Sample.shop
    /\ customers db2 = customers Sample.shop
    /\ productratings db2 = productratings Sample.shop.
Proof.
  apply (like_then_unlike_restores_likes
           (Sample.request_of "POST" 20 [] [])
           (Sample.request_of "DELETE" 20 [] [])
           3 Sample.shop Sample.lamp Sample.ben 20);
    reflexivity.
Defined.

Lemma unique_ids_same_row (rows : list UserLike.t) (a b : UserLike.t) :
  unique_on ["id"] rows = true ->
  In a rows -> In b rows -> UserLike.id a = UserLike.id b -> a = b.
Proof.
  unfold unique_on.
  induction rows as [|x r IH]; simpl; [intros _ []|].
  intros Hu Ha Hb Hid. apply andb_true_iff in Hu. destruct Hu as [Hx Hr].
  apply negb_true_iff in Hx.
  assert (Hno : forall y, In y r -> UserLike.id y <> UserLike.id x).
  { intros y Hy Heq.
    assert (E : existsb (key_eqb [Some (UserLike.id x)])
                  (map (fun r0 => map (fun c => UserLike_column c r0) ["id"])
                       r) = true).
    { apply existsb_exists. exists [Some (UserLike.id y)]. split.
      - apply in_map_iff. exists y. split; [reflexivity|exact Hy].
      - simpl. rewrite Heq, Z.eqb_refl. reflexivity. }
    assert (F : true = false) by exact (eq_trans (eq_sym E) Hx).
    discriminate F. }
  destruct Ha as [Ha|Ha], Hb as [Hb|Hb]; subst.
  - reflexivity.
  - exfalso. apply (Hno b Hb). symmetry. exact Hid.
  - exfalso. apply (Hno a Ha). exact Hid.
  - apply IH; assumption.
Qed.

Lemma satisfies_unique_ids (rows : list UserLike.t) :
  satisfies models.UserLike rows = true -> unique_on ["id"] rows = true.
Proof.
  unfold satisfies. intros H.
  apply andb_true_iff in H. destruct H as [H _].
  apply andb_true_iff in H. destruct H as [H _]. exact H.
Qed.

(** X8. Unlike removes the caller's like and nothing else. In a table
    that satisfies the UserLike class (distinct keys), a DELETE of a
    registered customer who has exactly one like on the product is
    answered 204; afterwards the customer has no like on the product, and
    the table holds exactly the other rows it held before. *)
Theorem unlike_removes_exactly_own_like (request : Request) (pk : Z)
  (db : Database) (product : Product.t) (customer : Customer.t) (u : Z)
  (own : UserLike.t) :
  method request = "DELETE" ->
  product_with pk db = Ok product ->
  auth request = Some u ->
  customer_of u db = Ok customer ->
  likes_of_pair pk (Customer.id customer) db = [own] ->
  satisfies models.UserLike (userlikes db) = true ->
  exists db',
    Products.like request pk db
      = (Ok (Some (new Response NoContent (Some 204))), db')
    /\ likes_of_pair pk (Customer.id customer) db' = []
    /\ (forall l, In l (userlikes db') <-> In l (userlikes db) /\ l <> own).
Proof.
  intros Hm Hp Ha Hc Hown Hs.
  apply satisfies_unique_ids in Hs.
  assert (Hin : In own (userlikes db)
                /\ (UserLike.product own =? pk)
                   && (UserLike.customer own =? Customer.id customer) = true).
  { apply (filter_In
             (fun l => (UserLike.product l =? pk)
                       && (UserLike.customer l =? Customer.id customer))).
    unfold likes_of_pair in Hown. rewrite Hown. left. reflexivity. }
  destruct Hin as [Hin Hpair].
  assert (Hrows : forall l,
            In l (userlikes (delete_userlike own db))
            <-> In l (userlikes db) /\ l <> own).
  { intros l. simpl. rewrite filter_In, negb_true_iff, Z.eqb_neq.
    split; intros [Hl Hne]; split; try exact Hl.
    - intros E. subst. apply Hne. reflexivity.
    - intros E. apply Hne. apply (unique_ids_same_row _ l own Hs Hl Hin E). }
  exists (delete_userlike own db). split; [|split; [|exact Hrows]].
  - rewrite (like_delete_cases request pk db product customer u Hm Hp Ha Hc).
    rewrite Hown. reflexivity.
  - unfold likes_of_pair.
    destruct (filter _ (userlikes (delete_userlike own db))) as [|x r] eqn:E;
      [reflexivity|].
    exfalso.
    assert (I : In x (filter
                        (fun l => (UserLike.product l =? pk)
                                  && (UserLike.customer l
                                      =? Customer.id customer))
                        (userlikes (delete_userlike own db)))).
    { rewrite E. left. reflexivity. }
    apply filter_In in I. destruct I as [Hx Hb].
    apply Hrows in Hx. destruct Hx as [Hx Hne].
    assert (I : In x (likes_of_pair pk (Customer.id customer) db)).
    { apply filter_In. split; assumption. }
    rewrite Hown in I. destruct I as [I|[]]. apply Hne. symmetry. exact I.
Qed.

Lemma unlike_removes_exactly_own_like_witness :
  exists db',
    Products.like (Sample.request_of "DELETE" 10 [] []) 1 Sample.liked_twice
      = (Ok (Some (new Response NoContent (Some 204))), db')
    /\ likes_of_pair 1 (Customer.id Sample.anna) db' = []
    /\ (forall l, In l (userlikes db')
                  <-> In l (userlikes Sample.liked_twice)
                      /\ l <> Sample.like_of 1 1 1).
Proof.
  apply (unlike_removes_exactly_own_like
           (Sample.request_of "DELETE" 10 [] []) 1 Sample.liked_twice
           Sample.kite Sample.anna 10 (Sample.like_of 1 1 1));
    reflexivity.
Defined.

(** ** The loop of the list operation *)

(** X9. The list operation needs a registered customer as soon as the
    table holds one product, although anonymous GET requests are let
    through to it: without a token it raises AttributeError (there is no
    [request.auth.user]), and with the token of a user who has no
    customer row it raises Customer.DoesNotExist, whatever the query
    parameters. On an empty table the loop does not run, and the caller
    does not matter. *)
Theorem list_needs_a_registered_customer (request : Request)
  (db : Database) :
  (products db <> [] ->
   (auth request = None ->
    Products.list request db
    = (Raise (AttributeError "NoneType" "user"), db))
   /\ (forall u,
         auth request = Some u ->
         existsb (fun c => Customer.user c =? u) (customers db) = false ->
         Products.list request db = (Raise (DoesNotExist CustomerM), db)))
  /\ (products db = [] ->
      forall request',
        query_params request' = query_params request ->
        Products.list request' db = Products.list request db).
Proof.
  split.
  - intros Hne. split.
    + intros Ha. rewrite (list_on_products _ _ Hne), Ha. reflexivity.
    + intros u Ha Hc. rewrite (list_on_products _ _ Hne), Ha.
      unfold customer_of. rewrite (objects_get_none CustomerM _ _ Hc).
      reflexivity.
  - intros Ee request' Hq. rewrite !(list_on_no_product _ _ Ee).
    unfold Products.list_query. rewrite Hq. reflexivity.
Qed.

Lemma list_needs_a_registered_customer_witness :
  Products.list
    {| method := "GET"; auth := None;
       query_params := [("category", "4")]; data := [] |}
    Sample.shop
  = (Raise (AttributeError "NoneType" "user"), Sample.shop).
Proof.
  apply (proj1 (proj1 (list_needs_a_registered_customer
                         {| method := "GET"; auth := None;
                            query_params := [("category", "4")];
                            data := [] |}
                         Sample.shop)
                  ltac:(discriminate))).
  reflexivity.
Defined.

(** X10. [list] lists no product. The only response it ever gives is the
    empty array, and it gives it only on a table without products. On a
    table with a product every request ends in one of four exceptions,
    raised in the first turn of the loop and caught nowhere: AttributeError
    (no token), Customer.DoesNotExist or Customer.MultipleObjectsReturned
    (the caller's user has no customer row, or several), and otherwise the
    TypeError of [product.liked = None]. *)
Theorem list_lists_no_product (request : Request) (db : Database) :
  (forall response,
     fst (Products.list request db) = Ok response ->
     products db = [] /\ response = new Response (ProductList []) None)
  /\ (products db <> [] ->
      exists e,
        Products.list request db = (Raise e, db)
        /\ (e = AttributeError "NoneType" "user"
            \/ e = DoesNotExist CustomerM
            \/ e = MultipleObjectsReturned CustomerM
            \/ e = not_assignable "liked")).
Proof.
  split; [intros response; apply list_Ok_inv|].
  intros Hne. rewrite (list_on_products _ _ Hne).
  destruct (auth request) as [u|]; [|eexists; split; [reflexivity|tauto]].
  unfold customer_of, objects_get.
  destruct (filter _ (customers db)) as [|c [|c' cs]];
    eexists; (split; [reflexivity|tauto]).
Qed.

Lemma list_lists_no_product_witness :
  exists e,
    Products.list (Sample.request_of "GET" 30 [] []) Sample.shop
      = (Raise e, Sample.shop)
    /\ (e = AttributeError "NoneType" "user"
        \/ e = DoesNotExist CustomerM
        \/ e = MultipleObjectsReturned CustomerM
        \/ e = not_assignable "liked").
Proof.
  apply (proj2 (list_lists_no_product (Sample.request_of "GET" 30 [] [])
                  Sample.shop)).
  discriminate.
Defined.

(** ** Deleting a product *)

(** Every way [destroy] can end. *)
Lemma destroy_outcome
  (on_delete_ratings : Z -> list ProductRating.t
                       -> result (list ProductRating.t))
  (args0 : exn -> string) (request : Request) (pk : Z) (db : Database) :
  destroy on_delete_ratings args0 request pk db =
    match product_with pk db with
    | Ok product =>
        match on_delete_ratings pk (productratings db) with
        | Ok left_ratings =>
            (Ok (new Response EmptyObject (Some 204)),
             without_product pk left_ratings db)
        | Raise e =>
            (Ok (new Response (Message (args0 e))
                   (Some (if is_DoesNotExist ProductM e then 404 else 500))),
             db)
        end
    | Raise e =>
        (Ok (new Response (Message (args0 e))
               (Some (if is_DoesNotExist ProductM e then 404 else 500))),
         db)
    end.
Proof.
  unfold destroy, try_except_Exception, Product_delete.
  run_handler.
  destruct (product_with pk db) as [product|e] eqn:Ep.
  - rewrite (product_with_id _ _ _ Ep).
    destruct (on_delete_ratings pk (productratings db)) as [left_ratings|e].
    + reflexivity.
    + destruct (is_DoesNotExist ProductM e); reflexivity.
  - destruct (is_DoesNotExist ProductM e); reflexivity.
Qed.

(** X15. [destroy] always answers and never raises: 204 with an empty
    object when the one product with the key was deleted, and otherwise
    404 (the lookup found no product) or 500 (any other exception: several
    products with the key, a deletion that was refused) with the text of
    the exception as message. Only the 204 changes the database. *)
Theorem destroy_always_answers
  (on_delete_ratings : Z -> list ProductRating.t
                       -> result (list ProductRating.t))
  (args0 : exn -> string) (request : Request) (pk : Z) (db : Database) :
  exists response,
    fst (destroy on_delete_ratings args0 request pk db) = Ok response
    /\ ((response = new Response EmptyObject (Some 204)
         /\ exists product left_ratings,
              product_with pk db = Ok product
              /\ on_delete_ratings pk (productratings db) = Ok left_ratings
              /\ snd (destroy on_delete_ratings args0 request pk db)
                 = without_product pk left_ratings db)
        \/ (exists e,
              response
              = new Response (Message (args0 e))
                  (Some (if is_DoesNotExist ProductM e then 404 else 500))
              /\ (product_with pk db = Raise e
                  \/ on_delete_ratings pk (productratings db) = Raise e)
              /\ snd (destroy on_delete_ratings args0 request pk db) = db)).
Proof.
  rewrite destroy_outcome.
  destruct (product_with pk db) as [product|e] eqn:Ep.
  - destruct (on_delete_ratings pk (productratings db)) as [left_ratings|e]
      eqn:Ed.
    + eexists. split; [reflexivity|]. left. split; [reflexivity|].
      exists product, left_ratings. auto.
    + eexists. split; [reflexivity|]. right. exists e. auto.
  - eexists. split; [reflexivity|]. right. exists e. auto.
Qed.

Lemma existsb_filter_negb_key {A : Type} (k : A -> Z) (v : Z) (l : list A) :
  existsb (fun x => k x =? v) (filter (fun x => negb (k x =? v)) l) = false.
Proof.
  induction l as [|a r IH]; simpl; [reflexivity|].
  destruct (k a =? v) eqn:E; simpl; [exact IH|].
  rewrite E. exact IH.
Qed.

(** X16. After a successful [destroy] the product is gone, with its likes.
    When the table holds one product with the key and the deletion is not
    refused, [destroy] answers 204; afterwards no product has the key and
    no like points at it, every other product and every like of another
    product is still there, [retrieve] answers 404 for the key, a second
    [destroy] answers 404 and changes nothing, and a DELETE to [like]
    answers 400. *)
Theorem destroy_removes_product_and_likes
  (on_delete_ratings : Z -> list ProductRating.t
                       -> result (list ProductRating.t))
  (args0 : exn -> string) (request : Request) (pk : Z) (db : Database)
  (product : Product.t) (left_ratings : list ProductRating.t) :
  product_with pk db = Ok product ->
  on_delete_ratings pk (productratings db) = Ok left_ratings ->
  let db' := without_product pk left_ratings db in
  destroy on_delete_ratings args0 request pk db
    = (Ok (new Response EmptyObject (Some 204)), db')
  /\ (forall p, In p (products db') <->
                In p (products db) /\ Product.id p <> pk)
  /\ (forall l, In l (userlikes db') <->
                In l (userlikes db) /\ UserLike.product l <> pk)
  /\ customers db' = customers db
  /\ (forall request',
        (exists response,
           Products.retrieve request' pk db' = (Ok response, db')
           /\ status_code response = 404)
        /\ destroy on_delete_ratings args0 request' pk db'
           = (Ok (new Response (Message (args0 (DoesNotExist ProductM)))
                    (Some 404)), db')
        /\ (method request' = "DELETE" ->
            Products.like request' pk db'
            = (Ok (Some (new Response (Message "Product does not exist")
                             (Some 400))), db'))).
Proof.
  intros Hp Hd db'.
  assert (Hgone : existsb (fun p => Product.id p =? pk) (products db')
                  = false).
  { apply (existsb_filter_negb_key Product.id). }
  assert (Hp' : product_with pk db' = Raise (DoesNotExist ProductM)).
  { unfold product_with. apply objects_get_none. exact Hgone. }
  split; [|split; [|split; [|split]]].
  - rewrite destroy_outcome, Hp, Hd. reflexivity.
  - intros p. simpl. rewrite filter_In, negb_true_iff, Z.eqb_neq.
    reflexivity.
  - intros l. simpl. rewrite filter_In, negb_true_iff, Z.eqb_neq.
    reflexivity.
  - reflexivity.
  - intros request'. split; [|split].
    + exists (new HttpResponseServerError
                (ExceptionText (DoesNotExist ProductM)) (Some 404)).
      split; [|reflexivity].
      unfold Products.retrieve. run_handler. rewrite Hp'. reflexivity.
    + rewrite destroy_outcome, Hp'. reflexivity.
    + intros Hm. apply like_delete_no_product; assumption.
Qed.

Lemma destroy_removes_product_and_likes_witness :
  destroy ratings_cascade plain_args0 (Sample.request_of "DELETE" 10 [] []) 1
    Sample.liked_twice
  = (Ok (new Response EmptyObject (Some 204)),
     without_product 1 [] Sample.liked_twice).
Proof.
  apply (proj1 (destroy_removes_product_and_likes
                  ratings_cascade plain_args0
                  (Sample.request_of "DELETE" 10 [] []) 1 Sample.liked_twice
                  Sample.kite [] eq_refl eq_refl)).
Defined.

(** ** What the service keeps true *)

Lemma satisfies_UserLike (rows : list UserLike.t) :
  satisfies models.UserLike rows = unique_on ["id"] rows.
Proof.
  unfold satisfies. simpl. rewrite !andb_true_r. reflexivity.
Qed.

Lemma likes_consistent_iff (db : Database) :
  likes_consistent db = true <->
  unique_on ["id"] (userlikes db) = true
  /\ like_keys_issued db = true
  /\ one_like_per_product db = true
  /\ likes_have_products db = true.
Proof.
  unfold likes_consistent. rewrite satisfies_UserLike, !andb_true_iff.
  tauto.
Qed.

Lemma forallb_filter {A : Type} (g f : A -> bool) (l : list A) :
  forallb g l = true -> forallb g (filter f l) = true.
Proof.
  rewrite !forallb_forall. intros H x Hx. apply filter_In in Hx.
  apply H. exact (proj1 Hx).
Qed.

Lemma likes_consistent_insert (pk customer : Z) (db : Database)
  (product : Product.t) :
  likes_of pk db = [] ->
  product_with pk db = Ok product ->
  likes_consistent db = true ->
  likes_consistent (insert_userlike pk customer db) = true.
Proof.
  intros Hn Hp H. apply likes_consistent_iff in H.
  destruct H as [Hu [Hk [Ho Hh]]]. apply likes_consistent_iff.
  unfold like_keys_issued in Hk. pose proof Hk as Hk'.
  rewrite forallb_forall in Hk'.
  split; [|split; [|split]].
  - unfold unique_on in *. simpl userlikes. rewrite map_app.
    apply distinctb_app_one; [exact Hu|].
    destruct (existsb _ _) eqn:E; [|reflexivity].
    apply existsb_exists in E. destruct E as [y [Hy Hy']].
    apply in_map_iff in Hy. destruct Hy as [l [El Hl]]. subst y.
    simpl in Hy'. rewrite andb_true_r in Hy'. apply Z.eqb_eq in Hy'.
    specialize (Hk' l Hl). apply Z.leb_le in Hk'. lia.
  - unfold like_keys_issued. simpl. rewrite forallb_app. simpl.
    apply andb_true_iff. split.
    + apply forallb_forall. intros l Hl. specialize (Hk' l Hl).
      apply Z.leb_le in Hk'. apply Z.leb_le. lia.
    + rewrite andb_true_r. apply Z.leb_le. lia.
  - unfold one_like_per_product in *. simpl userlikes. rewrite map_app.
    apply distinctb_app_one; [exact Ho|].
    simpl. unfold likes_of in Hn. apply filter_nil_existsb in Hn.
    rewrite <- Hn. clear.
    induction (userlikes db) as [|l r IH]; simpl; [reflexivity|].
    rewrite IH. reflexivity.
  - unfold likes_have_products in *. simpl. rewrite forallb_app.
    rewrite Hh. simpl. rewrite andb_true_r.
    apply objects_get_In in Hp. destruct Hp as [Hin Hid].
    apply existsb_exists. exists product. auto.
Qed.

Lemma likes_consistent_delete (l : UserLike.t) (db : Database) :
  likes_consistent db = true ->
  likes_consistent (delete_userlike l db) = true.
Proof.
  intros H. apply likes_consistent_iff in H.
  destruct H as [Hu [Hk [Ho Hh]]]. apply likes_consistent_iff.
  split; [|split; [|split]].
  - unfold unique_on in *. simpl userlikes.
    apply distinctb_map_filter. exact Hu.
  - unfold like_keys_issued in *. simpl. apply forallb_filter. exact Hk.
  - unfold one_like_per_product in *. simpl userlikes.
    apply distinctb_map_filter. exact Ho.
  - unfold likes_have_products in *. simpl. apply forallb_filter. exact Hh.
Qed.

Lemma likes_consistent_without_product (pk : Z)
  (left_ratings : list ProductRating.t) (db : Database) :
  likes_consistent db = true ->
  likes_consistent (without_product pk left_ratings db) = true.
Proof.
  intros H. apply likes_consistent_iff in H.
  destruct H as [Hu [Hk [Ho Hh]]]. apply likes_consistent_iff.
  split; [|split; [|split]].
  - unfold unique_on in *. simpl userlikes.
    apply distinctb_map_filter. exact Hu.
  - unfold like_keys_issued in *. simpl. apply forallb_filter. exact Hk.
  - unfold one_like_per_product in *. simpl userlikes.
    apply distinctb_map_filter. exact Ho.
  - unfold likes_have_products in *. simpl.
    rewrite forallb_forall in *. intros l Hl.
    apply filter_In in Hl. destruct Hl as [Hl Hne].
    specialize (Hh l Hl). apply existsb_exists in Hh.
    destruct Hh as [p [Hp Hid]]. apply existsb_exists. exists p.
    split; [|exact Hid]. apply filter_In. split; [exact Hp|].
    apply Z.eqb_eq in Hid. rewrite Hid. exact Hne.
Qed.

Lemma likes_consistent_same_likes (db db' : Database) :
  userlikes db' = userlikes db ->
  userlike_seq db' = userlike_seq db ->
  products db' = products db ->
  likes_consistent db = true -> likes_consistent db' = true.
Proof.
  intros El Es Ep. unfold likes_consistent, like_keys_issued,
    one_like_per_product, likes_have_products.
  rewrite El, Es, Ep. tauto.
Qed.

Lemma likes_consistent_serve
  (on_delete_ratings : Z -> list ProductRating.t
                       -> result (list ProductRating.t))
  (args0 : exn -> string) (call : Call) (request : Request)
  (db : Database) :
  likes_consistent db = true ->
  likes_consistent (serve on_delete_ratings args0 call request db) = true.
Proof.
  intros H. destruct call as [pk| |pk|pk| |pk]; simpl.
  - rewrite retrieve_db. exact H.
  - rewrite list_db. exact H.
  - destruct (rate_outcome request pk db)
      as [[customer [rating [E _]]]|[_ E]]; rewrite E; [|exact H].
    apply (likes_consistent_same_likes db); try reflexivity. exact H.
  - destruct (like_outcome request pk db)
      as [[customer [E [Hn [[product Hp] _]]]]|[[l [E _]]|[_ [_ E]]]];
      rewrite E; simpl snd.
    + apply (likes_consistent_insert pk customer db product); assumption.
    + apply likes_consistent_delete. exact H.
    + exact H.
  - rewrite liked_db. exact H.
  - rewrite destroy_outcome.
    destruct (product_with pk db) as [product|e]; [|exact H].
    destruct (on_delete_ratings pk (productratings db)); [|exact H].
    apply likes_consistent_without_product. exact H.
Qed.

(** X17. What the service keeps true of the likes. If the likes table is
    in order (distinct keys, all issued by the sequence, no product with
    two likes, every like pointing at a product), it is still in order
    after any sequence of calls to [retrieve], [list], [rate], [like],
    [liked] and [destroy], whatever they answered. So in a database
    reached from one without likes, a POST to [like] by a registered
    customer on an existing product never ends in MultipleObjectsReturned:
    it is answered 201 or 422. *)
Theorem service_keeps_likes_consistent
  (on_delete_ratings : Z -> list ProductRating.t
                       -> result (list ProductRating.t))
  (args0 : exn -> string) (calls : list (Call * Request)) (db : Database) :
  likes_consistent db = true ->
  likes_consistent (serve_all on_delete_ratings args0 calls db) = true
  /\ (forall request pk product customer u,
        method request = "POST" ->
        product_with pk (serve_all on_delete_ratings args0 calls db)
          = Ok product ->
        auth request = Some u ->
        customer_of u (serve_all on_delete_ratings args0 calls db)
          = Ok customer ->
        fst (Products.like request pk
               (serve_all on_delete_ratings args0 calls db))
          = Ok (Some (new Response EmptyObject (Some 201)))
        \/ fst (Products.like request pk
                  (serve_all on_delete_ratings args0 calls db))
           = Ok (Some (new Response
                           (Message "You have already liked this product")
                           (Some 422)))).
Proof.
  intros H.
  assert (Hinv : likes_consistent
                   (serve_all on_delete_ratings args0 calls db) = true).
  { revert db H. induction calls as [|[call request] rest IH]; intros db H;
      [exact H|].
    simpl. apply IH. apply likes_consistent_serve. exact H. }
  split; [exact Hinv|].
  intros request pk product customer u Hm Hp Ha Hc.
  rewrite (like_post_cases request pk _ product customer u Hm Hp Ha Hc).
  apply likes_consistent_iff in Hinv. destruct Hinv as [_ [_ [Ho _]]].
  unfold one_like_per_product in Ho. unfold likes_of.
  destruct (distinct_keys_filter UserLike.product pk _ Ho) as [E|[l E]];
    rewrite E; [left|right]; reflexivity.
Qed.

Lemma service_keeps_likes_consistent_witness :
  likes_consistent
    (serve_all ratings_cascade plain_args0
       [ (Like 1, Sample.request_of "POST" 10 [] []);
         (Like 1, Sample.request_of "POST" 20 [] []);
         (Destroy 2, Sample.request_of "DELETE" 10 [] []) ]
       Sample.shop) = true.
Proof.
  apply (proj1 (service_keeps_likes_consistent ratings_cascade plain_args0
                  [ (Like 1, Sample.request_of "POST" 10 [] []);
                    (Like 1, Sample.request_of "POST" 20 [] []);
                    (Destroy 2, Sample.request_of "DELETE" 10 [] []) ]
                  Sample.shop eq_refl)).
Defined.

Lemma one_rating_serve
  (on_delete_ratings : Z -> list ProductRating.t
                       -> result (list ProductRating.t))
  (args0 : exn -> string) (call : Call) (request : Request)
  (db : Database) :
  (forall pk rows left_ratings,
     on_delete_ratings pk rows = Ok left_ratings ->
     exists keep, left_ratings = filter keep rows) ->
  one_rating_per_product db = true ->
  one_rating_per_product (serve on_delete_ratings args0 call request db)
  = true.
Proof.
  intros Hsub H. destruct call as [pk| |pk|pk| |pk]; simpl.
  - rewrite retrieve_db. exact H.
  - rewrite list_db. exact H.
  - destruct (rate_outcome request pk db)
      as [[customer [rating [E [Hn _]]]]|[_ E]]; rewrite E; [|exact H].
    unfold one_rating_per_product in *. simpl. rewrite map_app.
    apply distinctb_app_one; [exact H|].
    simpl. unfold ratings_of in Hn. apply filter_nil_existsb in Hn.
    rewrite <- Hn. clear.
    induction (productratings db) as [|r l IH]; simpl; [reflexivity|].
    rewrite IH. reflexivity.
  - destruct (like_outcome request pk db)
      as [[customer [E _]]|[[l [E _]]|[_ [_ E]]]]; rewrite E; exact H.
  - rewrite liked_db. exact H.
  - rewrite destroy_outcome.
    destruct (product_with pk db) as [product|e]; [|exact H].
    destruct (on_delete_ratings pk (productratings db)) as [left_ratings|e]
      eqn:Ed; [|exact H].
    destruct (Hsub _ _ _ Ed) as [keep Ek].
    unfold one_rating_per_product in *. simpl. rewrite Ek.
    apply distinctb_map_filter. exact H.
Qed.

(** X18. What the service keeps true of the ratings. As long as deleting
    a product only removes ratings, a ratings table in which no product
    has two ratings stays so under any sequence of calls; so in a database
    reached from one without ratings, a POST to [rate] by a registered
    customer on an existing product, with a rating in its body, is
    answered 201 or 422 and never ends in MultipleObjectsReturned: no
    product ever gets a second rating, from whichever customer. *)
Theorem service_keeps_one_rating_per_product
  (on_delete_ratings : Z -> list ProductRating.t
                       -> result (list ProductRating.t))
  (args0 : exn -> string) (calls : list (Call * Request)) (db : Database) :
  (forall pk rows left_ratings,
     on_delete_ratings pk rows = Ok left_ratings ->
     exists keep, left_ratings = filter keep rows) ->
  one_rating_per_product db = true ->
  one_rating_per_product (serve_all on_delete_ratings args0 calls db) = true
  /\ (forall request pk product customer u rating,
        method request = "POST" ->
        product_with pk (serve_all on_delete_ratings args0 calls db)
          = Ok product ->
        auth request = Some u ->
        customer_of u (serve_all on_delete_ratings args0 calls db)
          = Ok customer ->
        qget "rating" (data request) = Some rating ->
        fst (Products.rate request pk
               (serve_all on_delete_ratings args0 calls db))
          = Ok (Some (new Response EmptyObject (Some 201)))
        \/ fst (Products.rate request pk
                  (serve_all on_delete_ratings args0 calls db))
           = Ok (Some (new Response
                           (Message "You have already rated this product")
                           (Some 422)))).
Proof.
  intros Hsub H.
  assert (Hinv : one_rating_per_product
                   (serve_all on_delete_ratings args0 calls db) = true).
  { revert db H. induction calls as [|[call request] rest IH]; intros db H;
      [exact H|].
    simpl. apply IH. apply one_rating_serve; assumption. }
  split; [exact Hinv|].
  intros request pk product customer u rating Hm Hp Ha Hc Hr.
  rewrite (rate_post_cases request pk _ product customer u Hm Hp Ha Hc).
  unfold one_rating_per_product in Hinv. unfold ratings_of.
  destruct (distinct_keys_filter ProductRating.product pk _ Hinv)
    as [E|[r E]]; rewrite E; [rewrite Hr; left|right]; reflexivity.
Qed.

Lemma service_keeps_one_rating_per_product_witness :
  one_rating_per_product
    (serve_all ratings_cascade plain_args0
       [ (Rate 1, Sample.request_of "POST" 10 [] [("rating", 4)]);
         (Rate 1, Sample.request_of "POST" 20 [] [("rating", 2)]);
         (Destroy 1, Sample.request_of "DELETE" 10 [] []) ]
       Sample.shop) = true.
Proof.
  refine (proj1 (service_keeps_one_rating_per_product
                  ratings_cascade plain_args0
                  [ (Rate 1, Sample.request_of "POST" 10 [] [("rating", 4)]);
                    (Rate 1, Sample.request_of "POST" 20 [] [("rating", 2)]);
                    (Destroy 1, Sample.request_of "DELETE" 10 [] []) ]
                  Sample.shop _ eq_refl)).
  intros pk rows left_ratings E. unfold ratings_cascade in E.
  injection E as E. subst.
  exists (fun r => negb (ProductRating.product r =? pk)). reflexivity.
Defined.

(** ** One rating and one like per product

    The two existence checks look a rating, or a like, up by the product
    alone, with [objects.get]. That lookup is sound as long as no product
    has two of them, and the handlers keep it so: the only rows they store
    are stored after the lookup found none. *)

Lemma one_rating_serve_all
  (on_delete_ratings : Z -> list ProductRating.t
                       -> result (list ProductRating.t))
  (args0 : exn -> string) (calls : list (Call * Request)) (db : Database) :
  (forall pk rows left_ratings,
     on_delete_ratings pk rows = Ok left_ratings ->
     exists keep, left_ratings = filter keep rows) ->
  one_rating_per_product db = true ->
  one_rating_per_product (serve_all on_delete_ratings args0 calls db) = true.
Proof.
  intros Hsub. revert db.
  induction calls as [|[call request] rest IH]; intros db H; [exact H|].
  simpl. apply IH. apply one_rating_serve; assumption.
Qed.

Lemma not_nil_one {A : Type} (l : list A) :
  l <> [] -> (l = [] \/ exists x, l = [x]) -> exists x, l = [x].
Proof.
  intros Hne [E|E]; [contradiction|exact E].
Qed.

(** C1. In every database that the service reaches from one in which no
    product has two ratings (one without ratings, say), a POST to
    /products/{p}/rate by a registered customer on an existing product p
    returns 422 with the message 'You have already rated this product',
    and stores nothing, if any rating of p exists, whoever made it;
    otherwise it stores exactly one new rating for (p, customer) with the
    rating value of the request and returns 201, and a POST on p by any
    registered customer after that returns 422. (Deleting a product is
    taken to remove ratings only, whatever ProductRating declares.) *)
Theorem rate_post_once_per_product
  (on_delete_ratings : Z -> list ProductRating.t
                       -> result (list ProductRating.t))
  (args0 : exn -> string) (calls : list (Call * Request)) (db0 : Database)
  (request : Request) (pk : Z) (product : Product.t)
  (customer : Customer.t) (u : Z) :
  (forall pk rows left_ratings,
     on_delete_ratings pk rows = Ok left_ratings ->
     exists keep, left_ratings = filter keep rows) ->
  one_rating_per_product db0 = true ->
  let db := serve_all on_delete_ratings args0 calls db0 in
  method request = "POST" ->
  product_with pk db = Ok product ->
  auth request = Some u ->
  customer_of u db = Ok customer ->
  (ratings_of pk db <> [] ->
   Products.rate request pk db
   = (Ok (Some (new Response
                    (Message "You have already rated this product")
                    (Some 422))), db))
  /\ (ratings_of pk db = [] ->
      forall rating,
        qget "rating" (data request) = Some rating ->
        let db' := insert_productrating pk (Customer.id customer) rating db in
        Products.rate request pk db
          = (Ok (Some (new Response EmptyObject (Some 201))), db')
        /\ productratings db'
           = (productratings db
              ++ [new_rating pk (Customer.id customer) rating db])%list
        /\ (forall request' u' customer',
              method request' = "POST" ->
              auth request' = Some u' ->
              customer_of u' db' = Ok customer' ->
              Products.rate request' pk db'
              = (Ok (Some (new Response
                               (Message "You have already rated this product")
                               (Some 422))), db'))).
Proof.
  intros Hsub H0 db Hm Hp Ha Hc.
  pose proof (one_rating_serve_all on_delete_ratings args0 calls db0 Hsub H0)
    as Hinv. fold db in Hinv.
  pose proof (rate_post_cases request pk db product customer u Hm Hp Ha Hc)
    as Hcases.
  split.
  - intros Hsome.
    destruct (not_nil_one _ Hsome
                (distinct_keys_filter ProductRating.product pk _ Hinv))
      as [r Er].
    rewrite Er in Hcases. exact Hcases.
  - intros Hnone rating Hrating db'.
    rewrite Hnone, Hrating in Hcases.
    split; [exact Hcases|]. split; [reflexivity|].
    intros request' u' customer' Hm' Ha' Hc'.
    rewrite (rate_post_cases request' pk db' product customer' u' Hm' Hp Ha' Hc').
    unfold ratings_of in *. subst db'. simpl productratings.
    rewrite filter_app, Hnone. simpl. rewrite Z.eqb_refl. reflexivity.
Qed.

Lemma rate_post_once_per_product_witness :
  Products.rate (Sample.request_of "POST" 20 [] [("rating", 2)]) 1
    (serve_all ratings_cascade plain_args0
       [ (Rate 1, Sample.request_of "POST" 10 [] [("rating", 4)]) ]
       Sample.shop)
  = (Ok (Some (new Response
                   (Message "You have already rated this product")
                   (Some 422))),
     serve_all ratings_cascade plain_args0
       [ (Rate 1, Sample.request_of "POST" 10 [] [("rating", 4)]) ]
       Sample.shop).
Proof.
  refine (proj1 (rate_post_once_per_product ratings_cascade plain_args0
                   [ (Rate 1, Sample.request_of "POST" 10 [] [("rating", 4)]) ]
                   Sample.shop
                   (Sample.request_of "POST" 20 [] [("rating", 2)])
                   1 Sample.kite Sample.ben 20
                   _ eq_refl eq_refl eq_refl eq_refl eq_refl) _).
  - intros pk rows left_ratings E. unfold ratings_cascade in E.
    injection E as E. subst.
    exists (fun r => negb (ProductRating.product r =? pk)). reflexivity.
  - vm_compute. discriminate.
Defined.

Lemma one_like_serve
  (on_delete_ratings : Z -> list ProductRating.t
                       -> result (list ProductRating.t))
  (args0 : exn -> string) (call : Call) (request : Request)
  (db : Database) :
  one_like_per_product db = true ->
  one_like_per_product (serve on_delete_ratings args0 call request db)
  = true.
Proof.
  intros H. destruct call as [pk| |pk|pk| |pk]; simpl.
  - rewrite retrieve_db. exact H.
  - rewrite list_db. exact H.
  - destruct (rate_outcome request pk db)
      as [[customer [rating [E _]]]|[_ E]]; rewrite E; exact H.
  - unfold one_like_per_product in *.
    destruct (like_outcome request pk db)
      as [[customer [E [Hn _]]]|[[l [E _]]|[_ [_ E]]]];
      rewrite E; simpl snd.
    + simpl userlikes. rewrite map_app.
      apply distinctb_app_one; [exact H|].
      simpl. unfold likes_of in Hn. apply filter_nil_existsb in Hn.
      rewrite <- Hn. clear.
      induction (userlikes db) as [|l r IH]; simpl; [reflexivity|].
      rewrite IH. reflexivity.
    + simpl userlikes. apply distinctb_map_filter. exact H.
    + exact H.
  - rewrite liked_db. exact H.
  - rewrite destroy_outcome.
    destruct (product_with pk db) as [product|e]; [|exact H].
    destruct (on_delete_ratings pk (productratings db)); [|exact H].
    unfold one_like_per_product in *. simpl userlikes.
    apply distinctb_map_filter. exact H.
Qed.

Lemma one_like_serve_all
  (on_delete_ratings : Z -> list ProductRating.t
                       -> result (list ProductRating.t))
  (args0 : exn -> string) (calls : list (Call * Request)) (db : Database) :
  one_like_per_product db = true ->
  one_like_per_product (serve_all on_delete_ratings args0 calls db) = true.
Proof.
  revert db.
  induction calls as [|[call request] rest IH]; intros db H; [exact H|].
  simpl. apply IH. apply one_like_serve. exact H.
Qed.

(** C4. In every database that the service reaches from one in which no
    product has two likes (one without likes, say), a POST to
    /products/{p}/like by a registered customer c on an existing product p
    returns 422, and stores nothing, if any like of p exists, by any
    customer, not only c; otherwise it stores exactly one new like for
    (p, c) and returns 201, and a POST on p by any registered customer
    after that returns 422. *)
Theorem like_post_once_per_product
  (on_delete_ratings : Z -> list ProductRating.t
                       -> result (list ProductRating.t))
  (args0 : exn -> string) (calls : list (Call * Request)) (db0 : Database)
  (request : Request) (pk : Z) (product : Product.t)
  (customer : Customer.t) (u : Z) :
  one_like_per_product db0 = true ->
  let db := serve_all on_delete_ratings args0 calls db0 in
  method request = "POST" ->
  product_with pk db = Ok product ->
  auth request = Some u ->
  customer_of u db = Ok customer ->
  (likes_of pk db <> [] ->
   Products.like request pk db
   = (Ok (Some (new Response
                    (Message "You have already liked this product")
                    (Some 422))), db))
  /\ (likes_of pk db = [] ->
      let db' := insert_userlike pk (Customer.id customer) db in
      Products.like request pk db
        = (Ok (Some (new Response EmptyObject (Some 201))), db')
      /\ userlikes db'
         = (userlikes db ++ [new_like pk (Customer.id customer) db])%list
      /\ (forall request' u' customer',
            method request' = "POST" ->
            auth request' = Some u' ->
            customer_of u' db' = Ok customer' ->
            Products.like request' pk db'
            = (Ok (Some (new Response
                             (Message "You have already liked this product")
                             (Some 422))), db'))).
Proof.
  intros H0 db Hm Hp Ha Hc.
  pose proof (one_like_serve_all on_delete_ratings args0 calls db0 H0)
    as Hinv. fold db in Hinv.
  pose proof (like_post_cases request pk db product customer u Hm Hp Ha Hc)
    as Hcases.
  split.
  - intros Hsome.
    destruct (not_nil_one _ Hsome
                (distinct_keys_filter UserLike.product pk _ Hinv))
      as [l El].
    rewrite El in Hcases. exact Hcases.
  - intros Hnone db'. rewrite Hnone in Hcases.
    split; [exact Hcases|]. split; [reflexivity|].
    intros request' u' customer' Hm' Ha' Hc'.
    rewrite (like_post_cases request' pk db' product customer' u' Hm' Hp Ha' Hc').
    unfold likes_of in *. subst db'. simpl userlikes.
    rewrite filter_app, Hnone. simpl. rewrite Z.eqb_refl. reflexivity.
Qed.

Lemma like_post_once_per_product_witness :
  Products.like (Sample.request_of "POST" 20 [] []) 1
    (serve_all ratings_cascade plain_args0
       [ (Like 1, Sample.request_of "POST" 10 [] []) ] Sample.shop)
  = (Ok (Some (new Response
                   (Message "You have already liked this product")
                   (Some 422))),
     serve_all ratings_cascade plain_args0
       [ (Like 1, Sample.request_of "POST" 10 [] []) ] Sample.shop).
Proof.
  refine (proj1 (like_post_once_per_product ratings_cascade plain_args0
                   [ (Like 1, Sample.request_of "POST" 10 [] []) ]
                   Sample.shop
                   (Sample.request_of "POST" 20 [] [])
                   1 Sample.kite Sample.ben 20
                   eq_refl eq_refl eq_refl eq_refl eq_refl) _).
  vm_compute. discriminate.
Defined.
